(** * xSyn: the sync store of a compact xBrowserSync server

    A shallow embedding of the request handlers of xSyn's [main.go] (the
    current program: the routes with the client-version bucket, the
    new-sync gate and the bounded identifier loop) over a functional model
    of the BoltDB store they run on.

    Sources: the closures that [main] registers for [POST /bookmarks],
    [GET /bookmarks/:id], [PUT /bookmarks/:id],
    [GET /bookmarks/:id/lastUpdated], [GET /bookmarks/:id/version] and
    the sync-toggle route, with [handleError] and [createTimestampString],
    in the [main.go] of the repository root (the Go text that follows the
    README's in [README.md]); for [Legacy], the routes of
    [src/xSyn/main.go]. Bolt ([github.com/boltdb/bolt]), [encoding/hex],
    [fmt] and [time] are modelled by what their functions are documented
    to do; [uuid.NewV5] is a parameter.

    - A Bolt bucket is a finite map from byte strings to byte strings
      together with its sequence counter; [Get] of a missing key is [nil]
      ([None]), and a stored zero-length value is not [nil].
    - [db.Update] runs a transaction body on the store and publishes its
      writes only when the body and the commit both return no error;
      [db.View] reads one committed store. Write transactions are
      serialized by Bolt's writer lock. [run] serves the requests one
      after the other, each handler from its first line to its answer.
    - [POST /bookmarks] and [PUT /bookmarks/:id] keep the result of
      [db.Update] in the [err] of [main], which all requests share, and
      test it after the transaction has ended; [exec] takes these
      handlers in two steps, between which other requests may run.
    - What the handlers take from outside (wall clock, random UUIDs, the
      outcome of the commit) is an explicit [Env] argument.
    - [Legacy] embeds the older copy of the handlers kept under
      [src/xSyn/main.go], which has neither the version bucket nor the
      retry bound. *)

From Stdlib Require Import ZArith NArith Ascii String Strings.Byte.
From stdpp Require Import gmap strings list.
From Equations Require Import Equations.

Local Open Scope string_scope.

(** ** Byte strings *)

(** Go's [[]byte] and [string] are both modelled by [string]; the handlers
    only convert between the two. *)
Definition len (s : string) : N := N.of_nat (String.length s).

(** [encoding/hex]: [hextable = "0123456789abcdef"]. *)
Definition hextable : list ascii :=
  ["0"; "1"; "2"; "3"; "4"; "5"; "6"; "7"; "8"; "9"; "a"; "b"; "c"; "d"; "e"; "f"]%char.

Definition hexdigit (n : N) : ascii := nth (N.to_nat n) hextable "0"%char.

(** [hex.Encode(dst, src)]: [dst[2i] = hextable[v>>4]],
    [dst[2i+1] = hextable[v&0x0f]] for each byte [v] of [src]. *)
Fixpoint hex_Encode (src : list byte) : string :=
  match src with
  | [] => EmptyString
  | v :: rest =>
      String (hexdigit (N.shiftr (Byte.to_N v) 4))
        (String (hexdigit (N.land (Byte.to_N v) 15)) (hex_Encode rest))
  end.

(** [fmt.Sprintf("%x", seqID)] for a [uint64]: lower-case hexadecimal, no
    padding. A 64-bit value has at most 16 digits, which bounds the
    recursion. *)
Fixpoint hex_digits (fuel : nat) (n : N) : string :=
  match fuel with
  | O => EmptyString
  | S fuel' =>
      if (n <? 16)%N then String (hexdigit n) EmptyString
      else hex_digits fuel' (n / 16)%N +:+ String (hexdigit (n mod 16)%N) EmptyString
  end.

Definition Sprintf_x (seqID : N) : string := hex_digits 16 seqID.

(** ** Wall-clock time and [time.RFC3339] *)

(** What [time.Now()] returns, broken into the fields that [Format] reads:
    the local calendar date and clock, the nanoseconds within the second,
    and the offset of the local zone east of UTC in seconds. *)
Record Time := {
  year : Z;
  month : Z;
  day : Z;
  hour : Z;
  minute : Z;
  second : Z;
  nanosecond : Z;
  zoneOffset : Z
}.

Definition digit_char (d : Z) : ascii := ascii_of_nat (48 + Z.to_nat d).

(** The last [width] decimal digits of [x], most significant first: Go's
    [appendInt(b, x, width)] for [0 <= x < 10^width], which is the range
    of every field below for years 0 to 9999. *)
Fixpoint appendInt (width : nat) (x : Z) : string :=
  match width with
  | O => EmptyString
  | S w => appendInt w (x / 10) +:+ String (digit_char (x mod 10)) EmptyString
  end.

(** The layout element [Z07:00]: [Z] when the offset is zero, otherwise
    the sign and the offset as hours and minutes. Go's [/] on integers
    truncates, hence [Z.quot]. *)
Definition format_zone (offset : Z) : string :=
  if (offset =? 0)%Z then "Z"
  else
    let zone := Z.quot offset 60 in
    let sign := if (zone <? 0)%Z then "-" else "+" in
    let zone := if (zone <? 0)%Z then (- zone)%Z else zone in
    sign +:+ appendInt 2 (zone / 60) +:+ ":" +:+ appendInt 2 (zone mod 60).

(** [t.Format(time.RFC3339)], layout ["2006-01-02T15:04:05Z07:00"]: the
    layout has no fractional-second element, so [nanosecond] is not
    read. *)
Definition Format_RFC3339 (t : Time) : string :=
  appendInt 4 (year t) +:+ "-" +:+ appendInt 2 (month t) +:+ "-" +:+
  appendInt 2 (day t) +:+ "T" +:+ appendInt 2 (hour t) +:+ ":" +:+
  appendInt 2 (minute t) +:+ ":" +:+ appendInt 2 (second t) +:+
  format_zone (zoneOffset t).

(** [createTimestampString]: [time.Now().Format(time.RFC3339)]. *)
Definition createTimestampString (now : Time) : string := Format_RFC3339 now.

(** ** Errors *)

(** The [error] values the handlers can see. [Error] is the text that
    [err.Error()] gives. *)
Inductive error :=
| ErrKeyRequired          (* bolt.ErrKeyRequired *)
| ErrKeyTooLarge          (* bolt.ErrKeyTooLarge *)
| ErrValueTooLarge        (* bolt.ErrValueTooLarge *)
| ErrTooManyCollisions    (* fmt.Errorf("too many UUID collisions") *)
| ErrDataNotFound         (* errors.New("data not found for key") *)
| ErrTimestampNotFound    (* errors.New("timestamp not found for key") *)
| ErrVersionNotFound      (* errors.New("version not found for key") *)
| ErrExternal (msg : string).
    (* an error made outside the handlers: JSON binding, the random
       source, the storage file *)

Definition Error (e : error) : string :=
  match e with
  | ErrKeyRequired => "key required"
  | ErrKeyTooLarge => "key too large"
  | ErrValueTooLarge => "value too large"
  | ErrTooManyCollisions => "too many UUID collisions"
  | ErrDataNotFound => "data not found for key"
  | ErrTimestampNotFound => "timestamp not found for key"
  | ErrVersionNotFound => "version not found for key"
  | ErrExternal msg => msg
  end.

(** ** The Bolt store *)

Definition MaxKeySize : N := 32768.
Definition MaxValueSize : N := 2 ^ 31 - 2.

(** One bucket: its key/value pairs and its sequence counter. *)
Record Bucket := {
  kv : gmap string string;
  sequence : N
}.

(** The three buckets that [main] creates before it serves a request:
    ["BM"], ["TS"] and ["VR"]. *)
Inductive BucketName := boltDataBucket | boltTimestampBucket | boltVersionBucket.

Record DB := {
  BM : Bucket;
  TS : Bucket;
  VR : Bucket
}.

Definition empty_bucket : Bucket := {| kv := ∅; sequence := 0 |}.
Definition empty_db : DB := {| BM := empty_bucket; TS := empty_bucket; VR := empty_bucket |}.

Definition bucket (name : BucketName) (db : DB) : Bucket :=
  match name with
  | boltDataBucket => BM db
  | boltTimestampBucket => TS db
  | boltVersionBucket => VR db
  end.

Definition set_bucket (name : BucketName) (b : Bucket) (db : DB) : DB :=
  match name with
  | boltDataBucket => {| BM := b; TS := TS db; VR := VR db |}
  | boltTimestampBucket => {| BM := BM db; TS := b; VR := VR db |}
  | boltVersionBucket => {| BM := BM db; TS := TS db; VR := b |}
  end.

(** [Bucket.Get]: the value of the key, [nil] when the key is absent. *)
Definition Bucket_Get (b : Bucket) (key : string) : option string := kv b !! key.

(** [Bucket.Put] in a writable transaction: the key must be non-empty and
    at most [MaxKeySize] bytes, the value at most [MaxValueSize] bytes. *)
Definition Bucket_Put (b : Bucket) (key value : string) : error + Bucket :=
  if (len key =? 0)%N then inl ErrKeyRequired
  else if (MaxKeySize <? len key)%N then inl ErrKeyTooLarge
  else if (MaxValueSize <? len value)%N then inl ErrValueTooLarge
  else inr {| kv := <[key := value]> (kv b); sequence := sequence b |}.

(** The sizes that [Bucket_Put] accepts. *)
Definition Put_accepts (key value : string) : bool :=
  negb (len key =? 0)%N && negb (MaxKeySize <? len key)%N &&
  negb (MaxValueSize <? len value)%N.

(** [Bucket.NextSequence]: increments the bucket's [uint64] counter and
    returns it. *)
Definition Bucket_NextSequence (b : Bucket) : N * Bucket :=
  let n := ((sequence b + 1) mod 2 ^ 64)%N in
  (n, {| kv := kv b; sequence := n |}).

(** ** Transactions *)

(** A transaction body: it reads and writes its own view of the store and
    returns a value or an error. The store it leaves behind is kept on
    the error path too, since what becomes of it is decided by
    [db_Update]. *)
Definition Tx (A : Type) : Type := DB -> (error + A) * DB.

Definition tx_ret {A} (a : A) : Tx A := fun db => (inr a, db).

Definition tx_fail {A} (e : error) : Tx A := fun db => (inl e, db).

Definition tx_bind {A B} (m : Tx A) (k : A -> Tx B) : Tx B :=
  fun db =>
    match m db with
    | (inl e, db') => (inl e, db')
    | (inr a, db') => k a db'
    end.

Declare Scope tx_scope.
Delimit Scope tx_scope with tx.
Notation "'let*' x := m 'in' k" := (tx_bind m (fun x => k))
  (at level 10, x name, m at level 100, k at level 200,
   format "'let*'  x  :=  m  'in' '//' k") : tx_scope.
Notation "'run*' m 'in' k" := (tx_bind m (fun _ => k))
  (at level 10, m at level 100, k at level 200,
   format "'run*'  m  'in' '//' k") : tx_scope.

Definition Tx_Bucket (name : BucketName) : Tx Bucket :=
  fun db => (inr (bucket name db), db).

Definition Tx_Get (name : BucketName) (key : string) : Tx (option string) :=
  fun db => (inr (Bucket_Get (bucket name db) key), db).

Definition Tx_Put (name : BucketName) (key value : string) : Tx unit :=
  fun db =>
    match Bucket_Put (bucket name db) key value with
    | inl e => (inl e, db)
    | inr b => (inr tt, set_bucket name b db)
    end.

Definition Tx_NextSequence (name : BucketName) : Tx N :=
  fun db =>
    let '(n, b) := Bucket_NextSequence (bucket name db) in
    (inr n, set_bucket name b db).

(** [db.Update(fn)]: [fn] runs on the store; if it returns an error the
    transaction is rolled back, otherwise it is committed, and a commit
    that fails ([commit = Some e]) leaves the store as it was. *)
Definition db_Update {A} (fn : Tx A) (commit : option error) (db : DB) : (error + A) * DB :=
  match fn db with
  | (inl e, _) => (inl e, db)
  | (inr a, db') =>
      match commit with
      | Some e => (inl e, db)
      | None => (inr a, db')
      end
  end.

(** [db.View(fn)]: [fn] reads one committed store; a read-only
    transaction publishes nothing. *)
Definition db_View {A} (fn : Tx A) (db : DB) : error + A := fst (fn db).

(** ** UUIDs and the request environment *)

(** [uuid.UUID] is [[16]byte]. *)
Record UUID := {
  uuid_bytes : list byte;
  uuid_size : length uuid_bytes = 16%nat
}.

(** What a handler takes from outside the program while it serves one
    request: the wall clock, the results of the successive [uuid.NewV4()]
    calls (the [i]-th call of the request returns [NewV4 i]; the call
    fails when the random source does), and the error, if any, with which
    the commit of its write transaction fails. *)
Record Env := {
  now : Time;
  NewV4 : nat -> error + UUID;
  commit : option error
}.

(** ** Requests and responses *)

(** [CreateBookmarkData], received in [POST /bookmarks]. *)
Record CreateBookmarkData := {
  ClientVersion : string   (* json:"version" *)
}.

(** [RequestData], received in [PUT /bookmarks/:id]. *)
Record RequestData := {
  EncodedBookmarks : string   (* json:"bookmarks" *)
}.

(** What a handler writes to the client: [c.JSON(status, gin.H{...})] with
    the object's string fields, or [c.String(status, body)]. *)
Inductive Response :=
| JSON (status : Z) (obj : list (string * string))
| Text (status : Z) (body : string).

Definition status_of (r : Response) : Z :=
  match r with
  | JSON status _ => status
  | Text status _ => status
  end.

(** [handleError]: on a non-nil [err] it answers 409 with [code] and
    [message] (the error's own text when [message] is empty) and returns
    [true], so that the handler stops; on a nil [err] it writes nothing
    and returns [false] ([None]). *)
Definition error_response (code message : string) (e : error) : Response :=
  let message := if (len message =? 0)%N then Error e else message in
  JSON 409 [("code", code); ("message", message)].

Definition handleError (code message : string) (err : option error) : option Response :=
  match err with
  | Some e => Some (error_response code message e)
  | None => None
  end.

(** The [error] result of a call, [nil] being [None]. *)
Definition err_of {A} (r : error + A) : option error :=
  match r with
  | inl e => Some e
  | inr _ => None
  end.

(** A variable that the transaction body assigns when it succeeds and
    that keeps its initial value otherwise. *)
Definition assigned {A} (initial : A) (r : error + A) : A :=
  match r with
  | inl _ => initial
  | inr a => a
  end.

Section Handlers.

(** [uuid.NewV5(ns, name)]: the name-based UUID, a hash of [ns] and [name].
    The handlers do not depend on which function it is. *)
Variable NewV5 : UUID -> string -> UUID.

Local Open Scope tx_scope.

(** *** [POST /bookmarks] *)

(** The candidate of one iteration: [uuid2 := uuid.NewV5(uuid1,
    fmt.Sprintf("%x", seqID)); hex.Encode(buf, uuid2[0:16])]. *)
Definition candidate (uuid1 : UUID) (seqID : N) : string :=
  hex_Encode (take 16 (uuid_bytes (NewV5 uuid1 (Sprintf_x seqID)))).

(** The loop [for !uniqueIDFound { ... }]. Every iteration draws one
    [NewV4] value, so the iteration that runs with [uniqueIDRetryCount]
    collisions behind it makes call number [uniqueIDRetryCount]. The
    loop leaves with [buf] on a free candidate, with the random source's
    error, or with "too many UUID collisions" once
    [uniqueIDRetryCount > 8]. *)
Equations? uniqueID_loop (bkData : Bucket) (seqID : N) (rnd : nat -> error + UUID)
    (uniqueIDRetryCount : nat) : error + string
    by wf (9 - uniqueIDRetryCount)%nat lt :=
  uniqueID_loop bkData seqID rnd uniqueIDRetryCount with rnd uniqueIDRetryCount => {
    | inl err := inl err;
    | inr uuid1 with Bucket_Get bkData (candidate uuid1 seqID) => {
      | None := inr (candidate uuid1 seqID);
      | Some existingKey with gt_dec (S uniqueIDRetryCount) 8 => {
        | left _ := inl ErrTooManyCollisions;
        | right _ := uniqueID_loop bkData seqID rnd (S uniqueIDRetryCount) } } }.
Proof. lia. Qed.

(** The body of the write transaction of [POST /bookmarks]; it returns
    [newID]. *)
Definition create_tx (bookmarkData : CreateBookmarkData) (imprintTime : string)
    (rnd : nat -> error + UUID) : Tx string :=
  let* seqID := Tx_NextSequence boltDataBucket in
  let* bkData := Tx_Bucket boltDataBucket in
  match uniqueID_loop bkData seqID rnd 0 with
  | inl err => tx_fail err
  | inr buf =>
      run* Tx_Put boltDataBucket buf "" in
      run* Tx_Put boltVersionBucket buf (ClientVersion bookmarkData) in
      run* Tx_Put boltTimestampBucket buf imprintTime in
      tx_ret buf
  end.

(** The handler. [newSyncsAllowed] is the process-wide gate, [body] the
    outcome of [c.ShouldBindJSON(&bookmarkData)]. *)
Definition post_bookmarks (newSyncsAllowed : bool) (body : error + CreateBookmarkData)
    (env : Env) (db : DB) : Response * DB :=
  if negb newSyncsAllowed then
    (JSON 409 [("code", "NotAllowed"); ("message", "Not accepting new sync users")], db)
  else
    match body with
    | inl err => (error_response "MissingParameter" "/bookmarks POST missing" err, db)
    | inr bookmarkData =>
        let imprintTime := createTimestampString (now env) in
        let '(res, db') :=
          db_Update (create_tx bookmarkData imprintTime (NewV4 env)) (commit env) db in
        let newID := assigned "invalid" res in
        match handleError "InternalError" "" (err_of res) with
        | Some failure => (failure, db')
        | None =>
            (JSON 200 [("id", newID); ("lastUpdated", imprintTime);
                       ("version", ClientVersion bookmarkData)], db')
        end
    end.

(** *** [GET /bookmarks/:id] *)

(** The body of the read transaction: all three values or the first
    missing one's error. *)
Definition get_tx (markID : string) : Tx (string * string * string) :=
  let* data := Tx_Get boltDataBucket markID in
  let* ts := Tx_Get boltTimestampBucket markID in
  let* ver := Tx_Get boltVersionBucket markID in
  match data, ts, ver with
  | None, _, _ => tx_fail ErrDataNotFound
  | Some _, None, _ => tx_fail ErrTimestampNotFound
  | Some _, Some _, None => tx_fail ErrVersionNotFound
  | Some data, Some ts, Some ver => tx_ret (data, ts, ver)
  end.

Definition get_bookmarks (markID : string) (db : DB) : Response :=
  let res := db_View (get_tx markID) db in
  let '(dataResult, tsResult, verResult) := assigned ("", "", "") res in
  match handleError "InvalidArgument" "Invalid ID" (err_of res) with
  | Some failure => failure
  | None =>
      JSON 200 [("bookmarks", dataResult); ("lastUpdated", tsResult);
                ("version", verResult)]
  end.

(** *** [PUT /bookmarks/:id] *)

Definition put_tx (markID : string) (bookmarkData : RequestData) (imprintTime : string)
    : Tx unit :=
  run* Tx_Put boltDataBucket markID (EncodedBookmarks bookmarkData) in
  Tx_Put boltTimestampBucket markID imprintTime.

Definition put_bookmarks (markID : string) (body : error + RequestData)
    (env : Env) (db : DB) : Response * DB :=
  match body with
  | inl err => (error_response "MissingParameter" "No bookmarks provided" err, db)
  | inr bookmarkData =>
      let imprintTime := createTimestampString (now env) in
      let '(res, db') := db_Update (put_tx markID bookmarkData imprintTime) (commit env) db in
      match handleError "InternalError" "" (err_of res) with
      | Some failure => (failure, db')
      | None => (JSON 200 [("lastUpdated", imprintTime)], db')
      end
  end.

(** *** [GET /bookmarks/:id/lastUpdated] and [GET /bookmarks/:id/version] *)

(** [string(b)] of a byte slice that may be [nil]. *)
Definition string_of_bytes (b : option string) : string := default "" b.

Definition get_lastUpdated (markID : string) (db : DB) : Response :=
  let res := db_View (let* v := Tx_Get boltTimestampBucket markID in
                      tx_ret (string_of_bytes v)) db in
  let timestampString := assigned "" res in
  match handleError "InternalError" "" (err_of res) with
  | Some failure => failure
  | None =>
      if (0 <? len timestampString)%N then JSON 200 [("lastUpdated", timestampString)]
      else Text 200 "{}"
  end.

Definition get_version (markID : string) (db : DB) : Response :=
  let res := db_View (let* v := Tx_Get boltVersionBucket markID in
                      tx_ret (string_of_bytes v)) db in
  let versionString := assigned "" res in
  match handleError "InternalError" "" (err_of res) with
  | Some failure => failure
  | None =>
      if (0 <? len versionString)%N then JSON 200 [("version", versionString)]
      else Text 200 "{}"
  end.

(** *** The server *)

(** The state the routes share: the store and the [newSyncsAllowed]
    flag. *)
Record Server := {
  db : DB;
  newSyncsAllowed : bool
}.

Inductive Request :=
| POST_bookmarks (body : error + CreateBookmarkData)
| GET_bookmarks (markID : string)
| PUT_bookmarks (markID : string) (body : error + RequestData)
| GET_lastUpdated (markID : string)
| GET_version (markID : string)
| GET_syncToggle.

(** One request served to completion. *)
Definition serve (req : Request) (env : Env) (s : Server) : Response * Server :=
  match req with
  | POST_bookmarks body =>
      let '(resp, db') := post_bookmarks (newSyncsAllowed s) body env (db s) in
      (resp, {| db := db'; newSyncsAllowed := newSyncsAllowed s |})
  | GET_bookmarks markID => (get_bookmarks markID (db s), s)
  | PUT_bookmarks markID body =>
      let '(resp, db') := put_bookmarks markID body env (db s) in
      (resp, {| db := db'; newSyncsAllowed := newSyncsAllowed s |})
  | GET_lastUpdated markID => (get_lastUpdated markID (db s), s)
  | GET_version markID => (get_version markID (db s), s)
  | GET_syncToggle =>
      let allowed := negb (newSyncsAllowed s) in
      (Text 200 (if allowed then "Toggled accept_new_syncs to [true]"
                 else "Toggled accept_new_syncs to [false]"),
       {| db := db s; newSyncsAllowed := allowed |})
  end.

(** A run of the server: the requests, each with its environment, are
    served one after the other, in the order in which their transactions
    are serialized. The result is the log of requests with their
    responses and the final state. *)
Fixpoint run (reqs : list (Request * Env)) (s : Server) : list (Request * Response) * Server :=
  match reqs with
  | [] => ([], s)
  | (req, env) :: rest =>
      let '(resp, s') := serve req env s in
      let '(log, s'') := run rest s' in
      ((req, resp) :: log, s'')
  end.

End Handlers.

(** ** The older copy of the handlers *)

(** [src/xSyn/main.go] keeps an earlier version of the routes: two
    buckets only, [POST /bookmarks] binds a [RequestData] and stores its
    bookmarks, the identifier loop has no retry bound, and
    [GET /bookmarks/:id] reads the payload and the timestamp. The other
    two routes it has are the same as above. *)
Module Legacy.
Section Handlers.

Variable NewV5 : UUID -> string -> UUID.

Local Open Scope tx_scope.

(** The loop without the counter test: it ends only on a free candidate
    or on an error of the random source. [None] means that more than
    [fuel] iterations are needed. *)
Fixpoint uniqueID_loop (fuel : nat) (bkData : Bucket) (seqID : N)
    (rnd : nat -> error + UUID) (uniqueIDRetryCount : nat) : option (error + string) :=
  match fuel with
  | O => None
  | S fuel' =>
      match rnd uniqueIDRetryCount with
      | inl err => Some (inl err)
      | inr uuid1 =>
          match Bucket_Get bkData (candidate NewV5 uuid1 seqID) with
          | None => Some (inr (candidate NewV5 uuid1 seqID))
          | Some existingKey =>
              uniqueID_loop fuel' bkData seqID rnd (S uniqueIDRetryCount)
          end
      end
  end.

(** The body of the write transaction; [None] when the loop in it needs
    more than [fuel] iterations. *)
Definition create_tx (fuel : nat) (bookmarkData : RequestData) (imprintTime : string)
    (rnd : nat -> error + UUID) (db : DB) : option ((error + string) * DB) :=
  let '(seqID, bkData) := Bucket_NextSequence (BM db) in
  let db1 := set_bucket boltDataBucket bkData db in
  match uniqueID_loop fuel bkData seqID rnd 0 with
  | None => None
  | Some (inl err) => Some (inl err, db1)
  | Some (inr buf) =>
      Some ((run* Tx_Put boltDataBucket buf (EncodedBookmarks bookmarkData) in
             run* Tx_Put boltTimestampBucket buf imprintTime in
             tx_ret buf) db1)
  end.

(** The handler; [None] when it has not answered within [fuel]
    iterations of the loop. *)
Definition post_bookmarks (fuel : nat) (body : error + RequestData)
    (env : Env) (db : DB) : option (Response * DB) :=
  match body with
  | inl err => Some (error_response "MissingParameter" "No bookmarks provided" err, db)
  | inr bookmarkData =>
      let imprintTime := createTimestampString (now env) in
      match create_tx fuel bookmarkData imprintTime (NewV4 env) db with
      | None => None
      | Some body_result =>
          let '(res, db') := db_Update (fun _ => body_result) (commit env) db in
          let newID := assigned "invalid" res in
          match handleError "InternalError" "" (err_of res) with
          | Some failure => Some (failure, db')
          | None => Some (JSON 200 [("id", newID); ("lastUpdated", imprintTime)], db')
          end
      end
  end.

Definition get_tx (markID : string) : Tx (string * string) :=
  let* data := Tx_Get boltDataBucket markID in
  let* ts := Tx_Get boltTimestampBucket markID in
  match data, ts with
  | None, _ => tx_fail ErrDataNotFound
  | Some _, None => tx_fail ErrTimestampNotFound
  | Some data, Some ts => tx_ret (data, ts)
  end.

Definition get_bookmarks (markID : string) (db : DB) : Response :=
  let res := db_View (get_tx markID) db in
  let '(dataResult, tsResult) := assigned ("", "") res in
  match handleError "InvalidArgument" "Invalid ID" (err_of res) with
  | Some failure => failure
  | None => JSON 200 [("bookmarks", dataResult); ("lastUpdated", tsResult)]
  end.

End Handlers.
End Legacy.

(** ** Observations on responses and logs *)

(** The value of a field of a JSON object. *)
Fixpoint field (name : string) (obj : list (string * string)) : option string :=
  match obj with
  | [] => None
  | (k, v) :: rest => if String.eqb k name then Some v else field name rest
  end.

Definition json_field (name : string) (r : Response) : option string :=
  match r with
  | JSON _ obj => field name obj
  | Text _ _ => None
  end.

(** The identifier that a log entry hands out: the [id] of a 200 answer
    to [POST /bookmarks]. *)
Definition created_id (entry : Request * Response) : option string :=
  match entry with
  | (POST_bookmarks _, JSON 200 obj) => field "id" obj
  | _ => None
  end.

Definition created_ids (log : list (Request * Response)) : list string :=
  omap created_id log.

(** A request that writes under [markID]: a [PUT] on it, or a
    [POST /bookmarks] that was answered with it. *)
Definition writes_under (markID : string) (entry : Request * Response) : Prop :=
  match entry with
  | (PUT_bookmarks id _, _) => id = markID
  | (POST_bookmarks _, resp) => json_field "id" resp = Some markID
  | _ => False
  end.


(** What the three buckets hold under [markID]. *)
Definition record_of (markID : string) (d : DB) : option string * option string * option string :=
  (kv (BM d) !! markID, kv (TS d) !! markID, kv (VR d) !! markID).

(** No value is stored under [markID] in any bucket. *)
Definition absent (markID : string) (d : DB) : Prop :=
  kv (BM d) !! markID = None /\ kv (TS d) !! markID = None /\ kv (VR d) !! markID = None.

(** No half-written pair: a payload is stored under an identifier exactly
    when a timestamp is, and a client version only where both are. *)
Definition complete_pairs (d : DB) : Prop :=
  forall markID,
    (is_Some (kv (BM d) !! markID) <-> is_Some (kv (TS d) !! markID)) /\
    (is_Some (kv (VR d) !! markID) -> is_Some (kv (BM d) !! markID)).

(** The store after [POST /bookmarks] has created [newID]: the sequence
    of the data bucket has moved on and the three values are in place. *)
Definition created (newID imprintTime ver : string) (d : DB) : DB :=
  {| BM := {| kv := <[newID := ""]> (kv (BM d));
              sequence := ((sequence (BM d) + 1) mod 2 ^ 64)%N |};
     TS := {| kv := <[newID := imprintTime]> (kv (TS d)); sequence := sequence (TS d) |};
     VR := {| kv := <[newID := ver]> (kv (VR d)); sequence := sequence (VR d) |} |}.

(** The store after [PUT /bookmarks/:id] has written [payload]. *)
Definition stored (markID payload imprintTime : string) (d : DB) : DB :=
  {| BM := {| kv := <[markID := payload]> (kv (BM d)); sequence := sequence (BM d) |};
     TS := {| kv := <[markID := imprintTime]> (kv (TS d)); sequence := sequence (TS d) |};
     VR := VR d |}.

(** The sequence number that the next [POST /bookmarks] obtains. *)
Definition next_seqID (d : DB) : N := ((sequence (BM d) + 1) mod 2 ^ 64)%N.

(** A draw that collides in the store [d]: the random source delivers a
    UUID whose candidate is already a key of the data bucket. *)
Definition collides (NewV5 : UUID -> string -> UUID) (d : DB) (r : error + UUID) : Prop :=
  exists uuid1,
    r = inr uuid1 /\ is_Some (kv (BM d) !! candidate NewV5 uuid1 (next_seqID d)).

(** An answer of [handleError]. *)
Definition is_failure (r : Response) : Prop :=
  exists code message, r = JSON 409 [("code", code); ("message", message)].

(** The shape [2016-07-06T12:43:16.866Z]: date, [T], time, a dot, three
    digits of milliseconds and the UTC designator [Z]. *)
Definition is_digit (c : ascii) : bool :=
  let n := nat_of_ascii c in ((48 <=? n) && (n <=? 57))%nat.

Definition shape_ok (pattern : ascii) (c : ascii) : bool :=
  if Ascii.eqb pattern "d" then is_digit c else Ascii.eqb pattern c.

Fixpoint matches_shape (pattern s : string) : bool :=
  match pattern, s with
  | EmptyString, EmptyString => true
  | String p pattern', String c s' => shape_ok p c && matches_shape pattern' s'
  | _, _ => false
  end.

Definition is_iso8601_millis_utc (s : string) : bool :=
  matches_shape "dddd-dd-ddTdd:dd:dd.dddZ" s.

(** ** Concrete inputs *)

Fixpoint bytes_of_N (k : nat) (n : N) : list byte :=
  match k with
  | O => []
  | S k' => bytes_of_N k' (n / 256)%N ++ [default x00%byte (Byte.of_N (n mod 256)%N)]
  end.

(** The UUID whose 16 bytes are the big-endian digits of [n]. *)
Definition uuid_of_N (n : N) : UUID :=
  {| uuid_bytes := bytes_of_N 16 n; uuid_size := eq_refl |}.

(** A mixing function for examples: it returns the namespace UUID. *)
Definition mix_id (ns : UUID) (name : string) : UUID := ns.

(** 6 July 2016, 12:43:16.866, in a zone at UTC and in one two hours
    east of it. *)
Definition t_utc : Time :=
  {| year := 2016; month := 7; day := 6; hour := 12; minute := 43; second := 16;
     nanosecond := 866000000; zoneOffset := 0 |}.

Definition t_cest : Time :=
  {| year := 2016; month := 7; day := 6; hour := 14; minute := 43; second := 16;
     nanosecond := 866000000; zoneOffset := 7200 |}.

(** The random source returns the UUIDs 1, 2, 3, ... and the commit
    succeeds. *)
Definition env_count : Env :=
  {| now := t_utc; NewV4 := fun i => inr (uuid_of_N (N.of_nat i + 1)); commit := None |}.

(** The same, with a commit that fails. *)
Definition env_disk_full : Env :=
  {| now := t_utc; NewV4 := fun i => inr (uuid_of_N (N.of_nat i + 1));
     commit := Some (ErrExternal "write: no space left on device") |}.


(** The identifier that [candidate mix_id (uuid_of_N n)] renders. *)
Definition id_of_N (n : N) : string := hex_Encode (bytes_of_N 16 n).

(** The store after the identifiers 1 to [n] have been created, one
    after the other. *)
Fixpoint db_with_ids (n : nat) : DB :=
  match n with
  | O => empty_db
  | S n' => created (id_of_N (N.of_nat n)) "2016-07-06T12:43:16Z" "1.0.0" (db_with_ids n')
  end.

Fixpoint repeat_char (n : nat) (c : ascii) : string :=
  match n with
  | O => EmptyString
  | S n' => String c (repeat_char n' c)
  end.


Definition version_1_0_0 : CreateBookmarkData := {| ClientVersion := "1.0.0" |}.
Definition ENCBLOB : RequestData := {| EncodedBookmarks := "ENCBLOB" |}.
Definition server0 : Server := {| db := empty_db; newSyncsAllowed := true |}.

(** ** Further observations *)




(** The times for which [appendInt] above is Go's: four-digit years,
    calendar and clock fields in their ranges, a zone offset of less
    than a day. *)
Definition valid_time (t : Time) : Prop :=
  (0 <= year t <= 9999 /\ 1 <= month t <= 12 /\ 1 <= day t <= 31 /\
   0 <= hour t <= 23 /\ 0 <= minute t <= 59 /\ 0 <= second t <= 59 /\
   0 <= nanosecond t < 1000000000 /\ -86400 < zoneOffset t < 86400)%Z.

(** A request to the sync-toggle route. *)
Definition is_toggle (req : Request) : bool :=
  match req with
  | GET_syncToggle => true
  | _ => false
  end.

Definition is_post (req : Request) : bool :=
  match req with
  | POST_bookmarks _ => true
  | _ => false
  end.

(** ** Start-up: the buckets of the store file *)

(** The store file as [main] finds it: the top-level buckets by name. *)
Definition bucket_name (name : BucketName) : string :=
  match name with
  | boltDataBucket => "BM"
  | boltTimestampBucket => "TS"
  | boltVersionBucket => "VR"
  end.

(** [tx.CreateBucketIfNotExists(name)]: the bucket of that name, created
    empty when the file has none; Bolt refuses an empty name. *)
Definition CreateBucketIfNotExists (name : string) (file : gmap string Bucket)
    : error + gmap string Bucket :=
  if (len name =? 0)%N then inl (ErrExternal "bucket name required")
  else
    match file !! name with
    | Some _ => inr file
    | None => inr (<[name := empty_bucket]> file)
    end.

(** [fmt.Errorf("create bucket: %s", err)]. *)
Definition create_bucket_error (err : error) : error :=
  ErrExternal ("create bucket: " +:+ Error err).

(** The transaction with which [main] ensures that the three buckets
    exist; a failure makes [main] panic. *)
Definition ensure_buckets (file : gmap string Bucket) : error + gmap string Bucket :=
  match CreateBucketIfNotExists (bucket_name boltDataBucket) file with
  | inl err => inl (create_bucket_error err)
  | inr file1 =>
      match CreateBucketIfNotExists (bucket_name boltTimestampBucket) file1 with
      | inl err => inl (create_bucket_error err)
      | inr file2 =>
          match CreateBucketIfNotExists (bucket_name boltVersionBucket) file2 with
          | inl err => inl (create_bucket_error err)
          | inr file3 => inr file3
          end
      end
  end.

(** The buckets that the handlers get from [tx.Bucket]; [None] when one
    of them is missing ([tx.Bucket] returns [nil] then, and the handler
    panics on its first use). *)
Definition open_buckets (file : gmap string Bucket) : option DB :=
  match file !! bucket_name boltDataBucket, file !! bucket_name boltTimestampBucket,
        file !! bucket_name boltVersionBucket with
  | Some bm, Some ts, Some vr => Some {| BM := bm; TS := ts; VR := vr |}
  | _, _, _ => None
  end.

(** The older copy ensures the data and the timestamp bucket only. *)
Definition legacy_ensure_buckets (file : gmap string Bucket) : error + gmap string Bucket :=
  match CreateBucketIfNotExists (bucket_name boltDataBucket) file with
  | inl err => inl (create_bucket_error err)
  | inr file1 =>
      match CreateBucketIfNotExists (bucket_name boltTimestampBucket) file1 with
      | inl err => inl (create_bucket_error err)
      | inr file2 => inr file2
      end
  end.

(** ** [GET /info] *)

(** Conversion to [int32]: the value modulo 2^32 in the signed range. *)
Definition int32 (z : Z) : Z := ((z + 2 ^ 31) mod 2 ^ 32 - 2 ^ 31)%Z.

(** [int64(1024 * AppConfig.Server.MaxSyncSizeKb)]: the product is taken
    in [int32], the type of [MaxSyncSizeKb], before it is widened. *)
Definition maxSyncSizeBytes (MaxSyncSizeKb : Z) : Z := int32 (1024 * MaxSyncSizeKb).

(** The object that [GET /info] answers with. *)
Record Info := {
  info_status : Z;
  info_message : string;
  info_version : string;
  info_buildstamp : string;
  info_maxSyncSize : Z
}.

Definition get_info (ServiceMessage BuildStamp : string) (MaxSyncSizeKb : Z)
    (s : Server) : Info :=
  let serviceStatus := if negb (newSyncsAllowed s) then 3%Z else 1%Z in
  {| info_status := serviceStatus;
     info_message := ServiceMessage;
     info_version := "1.1.5";
     info_buildstamp := BuildStamp;
     info_maxSyncSize := maxSyncSizeBytes MaxSyncSizeKb |}.

(** ** Requests that overlap *)

(** [main] declares one [err] ([db, err := bolt.Open(...)]), and the
    closures of [POST /bookmarks] and [PUT /bookmarks/:id] assign the
    result of [db.Update] to it ([err = db.Update(...)]) and read it again
    in [handleError(c, "InternalError", "", err)]; the [GET] handlers
    declare their own ([err := db.View(...)]). Gin serves every request
    in a goroutine of its own, so that variable is shared by all requests
    in flight. [Process] is what the goroutines share: the store, the
    gate and [err]. *)
Record Process := {
  proc_server : Server;
  proc_err : option error
}.

(** The value of the handler's local [newID] when [db.Update] returns:
    ["invalid"] if the loop returned an error, the candidate otherwise,
    also when a [Put] or the commit fails afterwards. *)
Definition create_newID (NewV5 : UUID -> string -> UUID) (rnd : nat -> error + UUID)
    (d : DB) : string :=
  let '(seqID, bkData) := Bucket_NextSequence (BM d) in
  match uniqueID_loop NewV5 bkData seqID rnd 0 with
  | inl _ => "invalid"
  | inr buf => buf
  end.

(** A request in flight. A writing handler is taken in two steps, each
    of them atomic: first everything up to and including the assignment
    [err = db.Update(...)], then the test of [err] in [handleError] with
    the answer. Between the two, other goroutines may run. (The steps of
    the program are finer; every schedule of these two-step handlers is
    one of its schedules.) *)
Inductive Goroutine :=
| Ready (req : Request) (env : Env)
| PostAwaitsErr (newID imprintTime version : string)
| PutAwaitsErr (imprintTime : string)
| Answered (resp : Response).

Definition advance (NewV5 : UUID -> string -> UUID) (g : Goroutine) (p : Process)
    : Goroutine * Process :=
  let s := proc_server p in
  match g with
  | Ready (POST_bookmarks body) env =>
      if negb (newSyncsAllowed s) then
        (Answered (JSON 409 [("code", "NotAllowed");
                             ("message", "Not accepting new sync users")]), p)
      else
        match body with
        | inl e =>
            (Answered (error_response "MissingParameter" "/bookmarks POST missing" e), p)
        | inr bookmarkData =>
            let imprintTime := createTimestampString (now env) in
            let '(res, db') :=
              db_Update (create_tx NewV5 bookmarkData imprintTime (NewV4 env))
                (commit env) (db s) in
            (PostAwaitsErr (create_newID NewV5 (NewV4 env) (db s)) imprintTime
               (ClientVersion bookmarkData),
             {| proc_server := {| db := db'; newSyncsAllowed := newSyncsAllowed s |};
                proc_err := err_of res |})
        end
  | Ready (PUT_bookmarks markID body) env =>
      match body with
      | inl e => (Answered (error_response "MissingParameter" "No bookmarks provided" e), p)
      | inr bookmarkData =>
          let imprintTime := createTimestampString (now env) in
          let '(res, db') :=
            db_Update (put_tx markID bookmarkData imprintTime) (commit env) (db s) in
          (PutAwaitsErr imprintTime,
           {| proc_server := {| db := db'; newSyncsAllowed := newSyncsAllowed s |};
              proc_err := err_of res |})
      end
  | Ready req env =>
      let '(resp, s') := serve NewV5 req env s in
      (Answered resp, {| proc_server := s'; proc_err := proc_err p |})
  | PostAwaitsErr newID imprintTime version =>
      match handleError "InternalError" "" (proc_err p) with
      | Some failure => (Answered failure, p)
      | None =>
          (Answered (JSON 200 [("id", newID); ("lastUpdated", imprintTime);
                               ("version", version)]), p)
      end
  | PutAwaitsErr imprintTime =>
      match handleError "InternalError" "" (proc_err p) with
      | Some failure => (Answered failure, p)
      | None => (Answered (JSON 200 [("lastUpdated", imprintTime)]), p)
      end
  | Answered resp => (Answered resp, p)
  end.

(** A schedule names, step by step, the goroutine that runs next. *)
Fixpoint exec (NewV5 : UUID -> string -> UUID) (schedule : list nat)
    (gs : list Goroutine) (p : Process) : list Goroutine * Process :=
  match schedule with
  | [] => (gs, p)
  | i :: rest =>
      match gs !! i with
      | Some g =>
          let '(g', p') := advance NewV5 g p in
          exec NewV5 rest (<[i := g']> gs) p'
      | None => exec NewV5 rest gs p
      end
  end.

(** The goroutines of requests that have arrived and not yet run. *)
Definition arrive (reqs : list (Request * Env)) : list Goroutine :=
  map (fun '(req, env) => Ready req env) reqs.

(** The schedule that lets the goroutines [k], ..., [k + n - 1] run to
    their answers one after the other. *)
Fixpoint one_by_one (k n : nat) : list nat :=
  match n with
  | O => []
  | S n' => k :: k :: one_by_one (S k) n'
  end.

(** The log of the requests [reqs], as far as their goroutines [gs]
    have answered. *)
Fixpoint answers (reqs : list (Request * Env)) (gs : list Goroutine)
    : list (Request * Response) :=
  match reqs, gs with
  | (req, _) :: reqs', Answered resp :: gs' => (req, resp) :: answers reqs' gs'
  | _ :: reqs', _ :: gs' => answers reqs' gs'
  | _, _ => []
  end.

(** A random source that is out of order. *)
Definition env_no_entropy : Env :=
  {| now := t_utc;
     NewV4 := fun _ => inl (ErrExternal "read /dev/urandom: input/output error");
     commit := None |}.

(** Two creations whose random source fails, and two updates. *)
Definition four_requests : list (Request * Env) :=
  [(POST_bookmarks (inr version_1_0_0), env_no_entropy);
   (PUT_bookmarks "00000000000000000000000000000001" (inr ENCBLOB), env_count);
   (POST_bookmarks (inr version_1_0_0), env_no_entropy);
   (PUT_bookmarks "00000000000000000000000000000002" (inr ENCBLOB), env_count)].

(** A creation whose commit fails, and an update. *)
Definition two_requests : list (Request * Env) :=
  [(POST_bookmarks (inr version_1_0_0), env_disk_full);
   (PUT_bookmarks "00000000000000000000000000000002" (inr ENCBLOB), env_count)].

(** The process after start-up on the store [d]: the transaction that
    ensures the buckets has left [err] nil. *)
Definition process_on (d : DB) : Process :=
  {| proc_server := {| db := d; newSyncsAllowed := true |}; proc_err := None |}.

(** * Properties *)

(** ** Byte strings and timestamps *)

Example hex_Encode_ex : hex_Encode [x00; xff; x1a]%byte = "00ff1a".
Proof. reflexivity. Qed.

Example Sprintf_x_ex : Sprintf_x 255 = "ff" /\ Sprintf_x 0 = "0" /\ Sprintf_x 4096 = "1000".
Proof. repeat split; reflexivity. Qed.

Example Format_ex :
  Format_RFC3339 {| year := 2016; month := 7; day := 6; hour := 12; minute := 43;
                    second := 16; nanosecond := 866000000; zoneOffset := 7200 |}
  = "2016-07-06T12:43:16+02:00".
Proof. reflexivity. Qed.

Lemma hex_Encode_length (src : list byte) :
  String.length (hex_Encode src) = (2 * length src)%nat.
Proof.
  induction src as [|v rest IH]; simpl; [reflexivity|]. rewrite IH. lia.
Qed.

Lemma candidate_length NewV5 (uuid1 : UUID) (seqID : N) :
  String.length (candidate NewV5 uuid1 seqID) = 32%nat.
Proof.
  unfold candidate. rewrite hex_Encode_length, length_take, uuid_size. reflexivity.
Qed.

Lemma string_length_app (s1 s2 : string) :
  String.length (s1 +:+ s2) = (String.length s1 + String.length s2)%nat.
Proof. induction s1 as [|c s1 IH]; simpl; [reflexivity|]. now rewrite IH. Qed.

Lemma appendInt_length (width : nat) (x : Z) : String.length (appendInt width x) = width.
Proof.
  revert x. induction width as [|w IH]; intros x; simpl; [reflexivity|].
  rewrite string_length_app, IH. simpl. lia.
Qed.

Lemma format_zone_length (offset : Z) :
  String.length (format_zone offset) = 1%nat \/ String.length (format_zone offset) = 6%nat.
Proof.
  unfold format_zone. destruct (offset =? 0)%Z; [left; reflexivity|right].
  cbv zeta. rewrite !string_length_app, !appendInt_length.
  destruct (Z.quot offset 60 <? 0)%Z; reflexivity.
Qed.

Lemma createTimestampString_length (t : Time) :
  String.length (createTimestampString t) = 20%nat \/
  String.length (createTimestampString t) = 25%nat.
Proof.
  unfold createTimestampString, Format_RFC3339.
  rewrite !string_length_app, !appendInt_length.
  destruct (format_zone_length (zoneOffset t)) as [-> | ->]; [left|right]; reflexivity.
Qed.

Lemma uniqueID_loop_step NewV5 bkData seqID rnd n :
  uniqueID_loop NewV5 bkData seqID rnd n =
  match rnd n with
  | inl err => inl err
  | inr uuid1 =>
      match Bucket_Get bkData (candidate NewV5 uuid1 seqID) with
      | None => inr (candidate NewV5 uuid1 seqID)
      | Some _ =>
          if gt_dec (S n) 8 then inl ErrTooManyCollisions
          else uniqueID_loop NewV5 bkData seqID rnd (S n)
      end
  end.
Proof.
  rewrite uniqueID_loop_unfold_eq at 1. unfold uniqueID_loop_unfold.
  destruct (rnd n) as [err|uuid1]; simpl; [reflexivity|].
  destruct (Bucket_Get bkData (candidate NewV5 uuid1 seqID)); simpl; [|reflexivity].
  destruct (gt_dec (S n) 8); reflexivity.
Qed.

(** ** The identifier loop *)

Section Loop.
Variable NewV5 : UUID -> string -> UUID.
Variables (bkData : Bucket) (seqID : N).

(** A candidate that the loop returns is free in the bucket it was
    checked against, and was drawn by one of the first nine calls. *)
Lemma uniqueID_loop_free rnd n buf :
  uniqueID_loop NewV5 bkData seqID rnd n = inr buf ->
  Bucket_Get bkData buf = None /\ String.length buf = 32%nat.
Proof.
  remember (9 - n)%nat as k eqn:Hk. revert n Hk.
  induction k as [|k IH]; intros n Hk H; rewrite uniqueID_loop_step in H;
    destruct (rnd n) as [err|uuid1]; try discriminate;
    destruct (Bucket_Get bkData (candidate NewV5 uuid1 seqID)) eqn:Hget;
    try (injection H as <-; split; [exact Hget | apply candidate_length]);
    destruct (gt_dec (S n) 8); try discriminate; try lia.
  apply (IH (S n)); [lia | exact H].
Qed.


(** The loop returns the first free candidate among the first nine. *)
Lemma uniqueID_loop_first_free rnd n k uuid1 :
  (n <= k <= 8)%nat ->
  (forall i, (n <= i < k)%nat ->
     exists uuid0, rnd i = inr uuid0 /\
                   is_Some (Bucket_Get bkData (candidate NewV5 uuid0 seqID))) ->
  rnd k = inr uuid1 ->
  Bucket_Get bkData (candidate NewV5 uuid1 seqID) = None ->
  uniqueID_loop NewV5 bkData seqID rnd n = inr (candidate NewV5 uuid1 seqID).
Proof.
  intros Hk Hall Hrnd Hfree. remember (k - n)%nat as m eqn:Hm. revert n Hk Hall Hm.
  induction m as [|m IH]; intros n Hk Hall Hm; rewrite uniqueID_loop_step.
  - assert (n = k) as -> by lia. rewrite Hrnd, Hfree. reflexivity.
  - destruct (Hall n) as (uuid0 & -> & [existingKey ->]); [lia|].
    destruct (gt_dec (S n) 8) as [Hgt|_]; [lia|].
    apply IH; [lia | intros i Hi; apply Hall; lia | lia].
Qed.


End Loop.

(** ** Writes *)

Lemma Put_accepts_iff key value :
  Put_accepts key value = true <->
  (0 < len key <= MaxKeySize)%N /\ (len value <= MaxValueSize)%N.
Proof.
  unfold Put_accepts. rewrite !andb_true_iff, !negb_true_iff.
  rewrite N.eqb_neq, !N.ltb_ge. lia.
Qed.

Lemma Bucket_Put_cases b key value :
  (Put_accepts key value = true /\
   Bucket_Put b key value = inr {| kv := <[key := value]> (kv b); sequence := sequence b |})
  \/ (Put_accepts key value = false /\ exists e, Bucket_Put b key value = inl e).
Proof.
  unfold Put_accepts, Bucket_Put.
  destruct (len key =? 0)%N; [right; eauto|].
  destruct (MaxKeySize <? len key)%N; [right; eauto|].
  destruct (MaxValueSize <? len value)%N; [right; eauto|].
  left. split; reflexivity.
Qed.

Lemma timestamp_accepted key payload t :
  Put_accepts key payload = true -> Put_accepts key (createTimestampString t) = true.
Proof.
  rewrite !Put_accepts_iff. intros [Hkey _]. split; [exact Hkey|].
  unfold len, MaxValueSize.
  destruct (createTimestampString_length t) as [-> | ->]; vm_compute; discriminate.
Qed.

(** [PUT /bookmarks/:id] with a body that binds: it answers 200 and has
    written both values, or it answers 409 and the store is as before.
    Which of the two depends on the sizes of the key and of the payload
    and on the commit, and on nothing else. *)
Lemma put_bookmarks_cases markID bookmarkData env d :
  let imprintTime := createTimestampString (now env) in
  (Put_accepts markID (EncodedBookmarks bookmarkData) = true /\ commit env = None /\
   put_bookmarks markID (inr bookmarkData) env d =
     (JSON 200 [("lastUpdated", imprintTime)],
      stored markID (EncodedBookmarks bookmarkData) imprintTime d))
  \/ ((Put_accepts markID (EncodedBookmarks bookmarkData) = false \/ commit env <> None) /\
      exists e, put_bookmarks markID (inr bookmarkData) env d =
                  (error_response "InternalError" "" e, d)).
Proof.
  intros imprintTime. unfold put_bookmarks, db_Update, put_tx, tx_bind, Tx_Put.
  fold imprintTime.
  destruct (Bucket_Put_cases (bucket boltDataBucket d) markID (EncodedBookmarks bookmarkData))
    as [[Hacc ->] | [Hrej [e ->]]].
  - pose proof (timestamp_accepted _ _ (now env) Hacc) as Hts. fold imprintTime in Hts.
    match goal with
    | |- context [Bucket_Put ?b markID imprintTime] =>
        destruct (Bucket_Put_cases b markID imprintTime) as [[_ ->] | [Hrej _]];
          [|congruence]
    end.
    destruct (commit env) as [e|] eqn:Hcommit.
    + right. split; [right; discriminate|]. exists e. reflexivity.
    + left. split; [exact Hacc|]. split; reflexivity.
  - right. split; [left; exact Hrej|]. exists e. reflexivity.
Qed.


Section Create.
Variable NewV5 : UUID -> string -> UUID.

Lemma create_tx_inr bookmarkData imprintTime rnd d buf d' :
  create_tx NewV5 bookmarkData imprintTime rnd d = (inr buf, d') ->
  kv (BM d) !! buf = None /\ String.length buf = 32%nat /\
  d' = created buf imprintTime (ClientVersion bookmarkData) d.
Proof.
  unfold create_tx, tx_bind, Tx_NextSequence, Tx_Bucket, Tx_Put, tx_fail, tx_ret. simpl.
  destruct (uniqueID_loop _ _ _ _ _) as [err|newID] eqn:Hloop; [discriminate|].
  apply uniqueID_loop_free in Hloop as [Hfree Hlen]. simpl in Hfree.
  repeat match goal with
  | |- context [Bucket_Put ?b ?k ?v] =>
      destruct (Bucket_Put_cases b k v) as [[_ ->] | [_ [e ->]]]; [|discriminate]
  end.
  simpl. intros [= <- <-]. repeat split; assumption.
Qed.

(** [POST /bookmarks]: it answers 200 with an identifier that was free
    when its transaction began, and the store holds the new record; or it
    answers 409 and the store is as before. *)
Lemma post_bookmarks_cases allowed body env d resp d' :
  post_bookmarks NewV5 allowed body env d = (resp, d') ->
  let imprintTime := createTimestampString (now env) in
  (exists bookmarkData newID,
      allowed = true /\ body = inr bookmarkData /\ commit env = None /\
      resp = JSON 200 [("id", newID); ("lastUpdated", imprintTime);
                       ("version", ClientVersion bookmarkData)] /\
      kv (BM d) !! newID = None /\ String.length newID = 32%nat /\
      d' = created newID imprintTime (ClientVersion bookmarkData) d)
  \/ (is_failure resp /\ d' = d).
Proof.
  intros H imprintTime. unfold post_bookmarks in H. fold imprintTime in H.
  destruct allowed; simpl in H.
  2:{ injection H as <- <-. right. split; [|reflexivity]. unfold is_failure; eauto. }
  destruct body as [err|bookmarkData].
  { injection H as <- <-. right. split; [|reflexivity].
    unfold is_failure, error_response; eauto. }
  unfold db_Update in H.
  destruct (create_tx NewV5 bookmarkData imprintTime (NewV4 env) d) as [[e|newID] d1] eqn:Htx.
  { injection H as <- <-. right. split; [|reflexivity].
    unfold is_failure, error_response; eauto. }
  destruct (commit env) as [e|] eqn:Hcommit.
  { injection H as <- <-. right. split; [|reflexivity].
    unfold is_failure, error_response; eauto. }
  injection H as <- <-.
  apply create_tx_inr in Htx as (Hfree & Hlen & ->).
  left. exists bookmarkData, newID. repeat split; assumption.
Qed.

End Create.

(** ** Runs of the server *)

Section Runs.
Variable NewV5 : UUID -> string -> UUID.

Lemma run_cons req env rest s :
  run NewV5 ((req, env) :: rest) s =
    ((req, fst (serve NewV5 req env s)) :: fst (run NewV5 rest (snd (serve NewV5 req env s))),
     snd (run NewV5 rest (snd (serve NewV5 req env s)))).
Proof.
  simpl. destruct (serve NewV5 req env s) as [resp s1]. simpl.
  destruct (run NewV5 rest s1) as [log s2]. reflexivity.
Qed.

(** No request removes a key from the data bucket. *)
Lemma serve_keeps_keys req env s k :
  is_Some (kv (BM (db (snd (serve NewV5 req env s)))) !! k) \/
  kv (BM (db s)) !! k = None.
Proof.
  destruct (kv (BM (db s)) !! k) as [v|] eqn:Hk; [left|right; reflexivity].
  destruct req as [body|markID|markID body| | |]; simpl; try (rewrite Hk; eauto).
  - destruct (post_bookmarks NewV5 (newSyncsAllowed s) body env (db s)) as [resp d'] eqn:Hpost.
    simpl. apply post_bookmarks_cases in Hpost as [(bd & newID & _ & _ & _ & _ & Hfree & _ & ->) | [_ ->]];
      [|rewrite Hk; eauto].
    simpl. rewrite lookup_insert_ne by congruence. rewrite Hk; eauto.
  - destruct body as [err|bd]; [simpl; rewrite Hk; eauto|].
    destruct (put_bookmarks_cases markID bd env (db s)) as [(_ & _ & ->) | (_ & e & ->)];
      simpl; [|rewrite Hk; eauto].
    destruct (decide (markID = k)) as [->|Hne];
      [rewrite lookup_insert_eq | rewrite lookup_insert_ne by exact Hne; rewrite Hk]; eauto.
Qed.

(** An identifier that a request hands out was free before the request
    and is a key of the data bucket after it. *)
Lemma serve_created req env s newID :
  created_id (req, fst (serve NewV5 req env s)) = Some newID ->
  kv (BM (db s)) !! newID = None /\ String.length newID = 32%nat /\
  is_Some (kv (BM (db (snd (serve NewV5 req env s)))) !! newID).
Proof.
  destruct req as [body|markID|markID body| | |]; simpl.
  - destruct (post_bookmarks NewV5 (newSyncsAllowed s) body env (db s)) as [resp d'] eqn:Hpost.
    simpl. apply post_bookmarks_cases in Hpost
      as [(bd & id & _ & _ & _ & -> & Hfree & Hlen & ->) | [(code & message & ->) _]].
    + simpl. intros [= <-]. repeat split; try assumption.
      rewrite lookup_insert_eq. eauto.
    + discriminate.
  - discriminate.
  - destruct (put_bookmarks markID body env (db s)); discriminate.
  - discriminate.
  - discriminate.
  - discriminate.
Qed.

Lemma created_ids_cons entry log :
  created_ids (entry :: log) =
    match created_id entry with
    | Some newID => newID :: created_ids log
    | None => created_ids log
    end.
Proof. reflexivity. Qed.

Lemma run_created_ids reqs :
  forall s,
    NoDup (created_ids (fst (run NewV5 reqs s))) /\
    Forall (fun newID => String.length newID = 32%nat /\ kv (BM (db s)) !! newID = None)
      (created_ids (fst (run NewV5 reqs s))).
Proof.
  induction reqs as [|[req env] rest IH]; intros s.
  { simpl. split; constructor. }
  rewrite run_cons. cbn [fst]. rewrite created_ids_cons.
  destruct (IH (snd (serve NewV5 req env s))) as [Hnodup Hall].
  assert (Hold : Forall (fun newID => String.length newID = 32%nat /\
                                      kv (BM (db s)) !! newID = None)
                   (created_ids (fst (run NewV5 rest (snd (serve NewV5 req env s)))))).
  { eapply Forall_impl; [exact Hall|]. intros newID [Hlen Hfree]. split; [exact Hlen|].
    destruct (serve_keeps_keys req env s newID) as [[v Hv]|Hnone]; [congruence|exact Hnone]. }
  destruct (created_id (req, fst (serve NewV5 req env s))) as [newID|] eqn:Hid;
    [|split; assumption].
  apply serve_created in Hid as (Hfree & Hlen & [v Hv]).
  split.
  - constructor; [|exact Hnodup].
    intros Hin. rewrite Forall_forall in Hall. apply Hall in Hin as [_ Hnone]. congruence.
  - constructor; [split; assumption | exact Hold].
Qed.

(** A request that does not write under [markID] leaves what the buckets
    hold under it. *)
Lemma serve_frame req env s markID :
  ~ writes_under markID (req, fst (serve NewV5 req env s)) ->
  record_of markID (db (snd (serve NewV5 req env s))) = record_of markID (db s).
Proof.
  destruct req as [body|id|id body| | |]; simpl; try reflexivity.
  - destruct (post_bookmarks NewV5 (newSyncsAllowed s) body env (db s)) as [resp d'] eqn:Hpost.
    simpl. apply post_bookmarks_cases in Hpost
      as [(bd & newID & _ & _ & _ & -> & _ & _ & ->) | [_ ->]]; [|reflexivity].
    simpl. intros Hne. unfold record_of. simpl.
    rewrite !lookup_insert_ne by congruence. reflexivity.
  - destruct body as [err|bd]; [reflexivity|].
    destruct (put_bookmarks_cases id bd env (db s)) as [(_ & _ & ->) | (_ & e & ->)];
      simpl; [|reflexivity].
    intros Hne. unfold record_of. simpl. rewrite !lookup_insert_ne by exact Hne. reflexivity.
Qed.

Lemma run_frame reqs markID :
  forall s,
    Forall (fun entry => ~ writes_under markID entry) (fst (run NewV5 reqs s)) ->
    record_of markID (db (snd (run NewV5 reqs s))) = record_of markID (db s).
Proof.
  induction reqs as [|[req env] rest IH]; intros s; [reflexivity|].
  rewrite run_cons. cbn [fst snd]. intros Hall.
  apply Forall_cons in Hall as [Hhead Htail].
  rewrite (IH _ Htail). apply serve_frame. exact Hhead.
Qed.




End Runs.

(** ** Identifier issuance *)

(** X12. When every request is answered before the next one starts, the
    identifiers handed out by successful [POST /bookmarks] requests are
    pairwise distinct, have 32 characters and were not keys of the store
    the run began with, whatever other requests come between the
    creations. The check and the claim happen in one transaction body:
    an identifier that [create_tx] returns was free in the store the
    transaction began with and holds the new record in the store it
    leaves. *)
Theorem created_ids_distinct (NewV5 : UUID -> string -> UUID) :
  (forall reqs s,
      NoDup (created_ids (fst (run NewV5 reqs s))) /\
      Forall (fun newID => String.length newID = 32%nat /\ kv (BM (db s)) !! newID = None)
        (created_ids (fst (run NewV5 reqs s)))) /\
  (forall bookmarkData imprintTime rnd d,
      match create_tx NewV5 bookmarkData imprintTime rnd d with
      | (inr newID, d') =>
          kv (BM d) !! newID = None /\
          kv (BM d') !! newID = Some "" /\
          kv (VR d') !! newID = Some (ClientVersion bookmarkData) /\
          kv (TS d') !! newID = Some imprintTime
      | (inl _, _) => True
      end).
Proof.
  split.
  - intros reqs s. apply run_created_ids.
  - intros bookmarkData imprintTime rnd d.
    destruct (create_tx NewV5 bookmarkData imprintTime rnd d) as [[e|newID] d'] eqn:Htx;
      [exact I|].
    apply create_tx_inr in Htx as (Hfree & _ & ->).
    simpl. rewrite !lookup_insert_eq. repeat split; [exact Hfree].
Qed.

(** ** Identifier issuance when requests overlap *)

Section Overlap.
Variable NewV5 : UUID -> string -> UUID.

Lemma create_tx_newID bookmarkData imprintTime rnd d newID d' :
  create_tx NewV5 bookmarkData imprintTime rnd d = (inr newID, d') ->
  create_newID NewV5 rnd d = newID.
Proof.
  unfold create_tx, create_newID, tx_bind, Tx_NextSequence, Tx_Bucket, Tx_Put, tx_fail, tx_ret.
  simpl.
  destruct (uniqueID_loop _ _ _ _ _) as [err|buf]; [discriminate|].
  repeat match goal with
  | |- context [Bucket_Put ?b ?k ?v] =>
      destruct (Bucket_Put_cases b k v) as [[_ ->] | [_ [e ->]]]; [simpl|discriminate]
  end.
  intros [= <- _]. reflexivity.
Qed.

(** A handler that runs its two steps with no other goroutine in between
    is the handler of [serve]: the same answer, the same store and
    gate. *)
Lemma advance_twice_serve req env p :
  let step1 := advance NewV5 (Ready req env) p in
  let step2 := advance NewV5 (fst step1) (snd step1) in
  fst step2 = Answered (fst (serve NewV5 req env (proc_server p))) /\
  proc_server (snd step2) = snd (serve NewV5 req env (proc_server p)).
Proof.
  destruct p as [s e0]. destruct req as [body|id|id body|id|id|]; simpl;
    try (split; reflexivity).
  - unfold post_bookmarks. destruct (newSyncsAllowed s) eqn:Hgate; simpl.
    2:{ split; [reflexivity|]. destruct s; simpl in *. congruence. }
    destruct body as [err|bd]; simpl.
    { split; [reflexivity|]. destruct s; simpl in *. congruence. }
    unfold db_Update.
    destruct (create_tx NewV5 bd (createTimestampString (now env)) (NewV4 env) (db s))
      as [[err|newID] d'] eqn:Htx; simpl.
    { split; [reflexivity|]. destruct s; simpl in *. congruence. }
    destruct (commit env) as [err|]; simpl.
    { split; [reflexivity|]. destruct s; simpl in *. congruence. }
    rewrite (create_tx_newID _ _ _ _ _ _ Htx). split; reflexivity.
  - unfold put_bookmarks. destruct body as [err|bd]; simpl.
    { split; [reflexivity|]. destruct s; reflexivity. }
    unfold db_Update.
    destruct (put_tx id bd (createTimestampString (now env)) (db s)) as [[err|[]] d'];
      simpl.
    { split; reflexivity. }
    destruct (commit env) as [err|]; simpl; split; reflexivity.
Qed.

(** Goroutines that run one after the other answer as [run] does, and
    leave the store and the gate of [run]. *)
Lemma exec_one_by_one reqs : forall answered p,
  let result := exec NewV5 (one_by_one (length answered) (length reqs))
                  (answered ++ arrive reqs)%list p in
  fst result =
    (answered ++ map (fun entry => Answered (snd entry))
                   (fst (run NewV5 reqs (proc_server p))))%list /\
  proc_server (snd result) = snd (run NewV5 reqs (proc_server p)).
Proof.
  induction reqs as [|[req env] rest IH]; intros answered p.
  - simpl. rewrite app_nil_r. split; reflexivity.
  - cbn zeta. rewrite run_cons. cbn [fst snd length one_by_one arrive map exec].
    fold (arrive rest).
    pose proof (advance_twice_serve req env p) as Htwice. cbn zeta in Htwice.
    rewrite list_lookup_middle by reflexivity.
    destruct (advance NewV5 (Ready req env) p) as [g1 p1]. cbn [fst snd] in Htwice.
    rewrite insert_app_r_alt by lia. rewrite Nat.sub_diag. cbn [insert list_insert].
    rewrite list_lookup_middle by reflexivity.
    destruct (advance NewV5 g1 p1) as [g2 p2]. cbn [fst snd] in Htwice.
    destruct Htwice as [-> Hserver].
    rewrite insert_app_r_alt by lia. rewrite Nat.sub_diag. cbn [insert list_insert].
    specialize (IH (answered ++ [Answered (fst (serve NewV5 req env (proc_server p)))])%list p2).
    cbn zeta in IH. rewrite length_app, Nat.add_1_r, <- app_assoc in IH.
    cbn [app] in IH. rewrite Hserver in IH. destruct IH as [-> ->].
    rewrite <- app_assoc. split; reflexivity.
Qed.

(** A [POST /bookmarks] whose first [uuid.NewV4()] fails and that is
    overtaken, between its transaction and its test of [err], by a
    [PUT] that succeeds, answers 200 with the identifier ["invalid"]. *)
Lemma post_overtaken_by_put bookmarkData env e markID body env' p :
  newSyncsAllowed (proc_server p) = true ->
  NewV4 env 0%nat = inl e ->
  fst (put_bookmarks markID (inr body) env' (db (proc_server p))) =
    JSON 200 [("lastUpdated", createTimestampString (now env'))] ->
  fst (exec NewV5 [0; 1; 0]%nat
         [Ready (POST_bookmarks (inr bookmarkData)) env;
          Ready (PUT_bookmarks markID (inr body)) env'] p) !! 0%nat =
    Some (Answered (JSON 200 [("id", "invalid");
                              ("lastUpdated", createTimestampString (now env));
                              ("version", ClientVersion bookmarkData)])).
Proof.
  intros Hgate Hrnd Hput.
  cbn [exec lookup list_lookup advance]. rewrite Hgate. cbn [negb].
  assert (Hnew : create_newID NewV5 (NewV4 env) (db (proc_server p)) = "invalid").
  { unfold create_newID.
    destruct (Bucket_NextSequence (BM (db (proc_server p)))) as [seqID bkData].
    rewrite uniqueID_loop_step, Hrnd. reflexivity. }
  assert (Htx : db_Update (create_tx NewV5 bookmarkData (createTimestampString (now env))
                             (NewV4 env)) (commit env) (db (proc_server p)) =
                (inl e, db (proc_server p))).
  { unfold db_Update, create_tx, tx_bind, Tx_NextSequence, Tx_Bucket, tx_fail.
    destruct (Bucket_NextSequence _) as [seqID bkData].
    rewrite uniqueID_loop_step, Hrnd. reflexivity. }
  rewrite Hnew, Htx.
  cbn [insert list_insert lookup list_lookup advance proc_server db].
  unfold put_bookmarks in Hput.
  destruct (db_Update (put_tx markID body (createTimestampString (now env'))) (commit env')
              (db (proc_server p))) as [[err|[]] d'].
  { simpl in Hput. discriminate. }
  reflexivity.
Qed.

Lemma answers_answered reqs : forall log,
  length log = length reqs -> map fst log = map fst reqs ->
  answers reqs (map (fun entry => Answered (snd entry)) log) = log.
Proof.
  induction reqs as [|[req env] rest IH]; intros [|[req' resp] log] Hlen Hreqs;
    simpl in *; try discriminate; [reflexivity|].
  injection Hlen as Hlen. injection Hreqs as -> Hreqs. rewrite IH by assumption.
  reflexivity.
Qed.

Lemma run_log_requests reqs : forall s,
  length (fst (run NewV5 reqs s)) = length reqs /\
  map fst (fst (run NewV5 reqs s)) = map fst reqs.
Proof.
  induction reqs as [|[req env] rest IH]; intros s; [split; reflexivity|].
  rewrite run_cons. cbn [fst length map].
  destruct (IH (snd (serve NewV5 req env s))) as [-> ->]. split; reflexivity.
Qed.

(** Requests that no other request overlaps are the runs of [run]: the
    log and the store are the same. *)
Lemma one_by_one_is_run reqs s e :
  let result := exec NewV5 (one_by_one 0 (length reqs)) (arrive reqs)
                  {| proc_server := s; proc_err := e |} in
  answers reqs (fst result) = fst (run NewV5 reqs s) /\
  proc_server (snd result) = snd (run NewV5 reqs s).
Proof.
  pose proof (exec_one_by_one reqs [] {| proc_server := s; proc_err := e |}) as Hexec.
  cbn zeta in *. cbn [length app proc_server] in Hexec. destruct Hexec as [-> ->].
  split; [|reflexivity].
  destruct (run_log_requests reqs s) as [Hlen Hreqs]. apply answers_answered; assumption.
Qed.

End Overlap.

(** C1, on the code. The identifiers that successful creations return
    are not pairwise distinct when requests overlap. Two
    [POST /bookmarks] requests whose [uuid.NewV4()] fails overlap with
    two [PUT]s that succeed. Each [POST] assigns the error of its
    transaction to [main]'s [err]; before it tests [err], a [PUT] has
    assigned nil to the same variable; so both [POST]s answer 200 with
    the identifier ["invalid"], which has seven characters and under
    which nothing is stored. Served one after the other, the same
    requests create nothing: both [POST]s answer 409. In the same way a
    [POST] whose commit fails and that a [PUT] overtakes answers 200 with
    an identifier that the store does not hold, on which
    [GET /bookmarks/:id] answers 409. *)
Theorem overlapping_creates_answer_invalid :
  let overlapped :=
    exec mix_id [0; 1; 0; 2; 3; 2; 1; 3]%nat (arrive four_requests)
      (process_on (db_with_ids 3)) in
  let serial :=
    exec mix_id (one_by_one 0 4) (arrive four_requests) (process_on (db_with_ids 3)) in
  let overtaken :=
    exec mix_id [0; 1; 0; 1]%nat (arrive two_requests) (process_on (db_with_ids 3)) in
  (created_ids (answers four_requests (fst overlapped)) = ["invalid"; "invalid"] /\
   ~ NoDup (created_ids (answers four_requests (fst overlapped))) /\
   fst overlapped !! 0%nat =
     Some (Answered (JSON 200 [("id", "invalid"); ("lastUpdated", "2016-07-06T12:43:16Z");
                               ("version", "1.0.0")])) /\
   fst overlapped !! 2%nat =
     Some (Answered (JSON 200 [("id", "invalid"); ("lastUpdated", "2016-07-06T12:43:16Z");
                               ("version", "1.0.0")])) /\
   record_of "invalid" (db (proc_server (snd overlapped))) = (None, None, None)) /\
  (created_ids (answers four_requests (fst serial)) = [] /\
   fst serial !! 0%nat =
     Some (Answered (JSON 409 [("code", "InternalError");
                               ("message", "read /dev/urandom: input/output error")])) /\
   fst serial !! 2%nat =
     Some (Answered (JSON 409 [("code", "InternalError");
                               ("message", "read /dev/urandom: input/output error")]))) /\
  (created_ids (answers two_requests (fst overtaken)) =
     ["00000000000000000000000000000004"] /\
   record_of "00000000000000000000000000000004" (db (proc_server (snd overtaken))) =
     (None, None, None) /\
   get_bookmarks "00000000000000000000000000000004" (db (proc_server (snd overtaken))) =
     JSON 409 [("code", "InvalidArgument"); ("message", "Invalid ID")]).
Proof.
  vm_compute.
  split; [split; [reflexivity|split]|].
  2: repeat split; reflexivity.
  2: repeat split; reflexivity.
  intros Hnodup. inversion Hnodup as [|x l Hnotin _]. apply Hnotin. left.
Qed.



(** ** The retry bound *)

Section RetryBound.
Variable NewV5 : UUID -> string -> UUID.


(** With eight collisions behind it the loop still tries a ninth
    candidate, whatever the mixing function is. *)
Lemma create_tx_ninth_candidate bookmarkData imprintTime rnd d uuid1 :
  (forall i, (i < 8)%nat -> collides NewV5 d (rnd i)) ->
  rnd 8%nat = inr uuid1 ->
  kv (BM d) !! candidate NewV5 uuid1 (next_seqID d) = None ->
  (len (ClientVersion bookmarkData) <= MaxValueSize)%N ->
  (len imprintTime <= MaxValueSize)%N ->
  create_tx NewV5 bookmarkData imprintTime rnd d =
    (inr (candidate NewV5 uuid1 (next_seqID d)),
     created (candidate NewV5 uuid1 (next_seqID d)) imprintTime
       (ClientVersion bookmarkData) d).
Proof.
  intros Hall Hrnd Hfree Hver Hts.
  unfold create_tx, tx_bind, Tx_NextSequence, Tx_Bucket, Tx_Put, tx_ret. simpl.
  rewrite (uniqueID_loop_first_free NewV5 _ _ rnd 0 8 uuid1);
    [| lia | | exact Hrnd | exact Hfree].
  2:{ intros i Hi. destruct (Hall i) as (uuid0 & Hi0 & Hsome); [lia|]. eauto. }
  fold (next_seqID d).
  pose proof (candidate_length NewV5 uuid1 (next_seqID d)) as Hlen.
  set (newID := candidate NewV5 uuid1 (next_seqID d)) in *.
  assert (Hacc : forall value, (len value <= MaxValueSize)%N ->
                               Put_accepts newID value = true).
  { intros value Hvalue. apply Put_accepts_iff. unfold len at 1 2. rewrite Hlen.
    split; [vm_compute; split; [reflexivity | discriminate] | exact Hvalue]. }
  repeat match goal with
  | |- context [Bucket_Put ?b ?k ?v] =>
      destruct (Bucket_Put_cases b k v) as [[_ ->] | [Hrej _]];
        [simpl | rewrite Hacc in Hrej;
                   [discriminate | first [assumption | vm_compute; discriminate]]]
  end.
  reflexivity.
Qed.


(** So, for every mixing function, a creation whose first eight
    candidates collide and whose ninth is free answers 200 with the
    ninth. *)
Lemma post_bookmarks_ninth_candidate (bookmarkData : CreateBookmarkData) env d uuid1 :
  (forall i, (i < 8)%nat -> collides NewV5 d (NewV4 env i)) ->
  NewV4 env 8%nat = inr uuid1 ->
  kv (BM d) !! candidate NewV5 uuid1 (next_seqID d) = None ->
  (len (ClientVersion bookmarkData) <= MaxValueSize)%N ->
  commit env = None ->
  fst (post_bookmarks NewV5 true (inr bookmarkData) env d) =
    JSON 200 [("id", candidate NewV5 uuid1 (next_seqID d));
              ("lastUpdated", createTimestampString (now env));
              ("version", ClientVersion bookmarkData)].
Proof.
  intros Hall Hrnd Hfree Hver Hcommit. unfold post_bookmarks, db_Update. simpl.
  rewrite (create_tx_ninth_candidate bookmarkData _ (NewV4 env) d uuid1 Hall Hrnd Hfree Hver).
  - rewrite Hcommit. reflexivity.
  - unfold len, MaxValueSize.
    destruct (createTimestampString_length (now env)) as [-> | ->]; vm_compute; discriminate.
Qed.

End RetryBound.




(** ** Timestamps *)

Lemma matches_shape_length pattern s :
  matches_shape pattern s = true -> String.length s = String.length pattern.
Proof.
  revert s. induction pattern as [|p pattern IH]; intros [|c s]; simpl;
    try discriminate; [reflexivity|].
  intros H. apply andb_true_iff in H as [_ H]. now rewrite (IH s H).
Qed.

(** C4, on the code. [createTimestampString] formats with
    [time.RFC3339], whose layout has no fractional seconds and prints the
    local zone: at 12:43:16.866 UTC on 6 July 2016 it gives
    [2016-07-06T12:43:16Z], in a zone two hours east of UTC it gives
    [2016-07-06T14:43:16+02:00], and at no time does it give a string of
    the shape [2016-07-06T12:43:16.866Z] that the comment above the
    function asks for. [PUT /bookmarks/:id] stores and returns that
    string. *)
Theorem timestamp_has_no_milliseconds :
  createTimestampString t_utc = "2016-07-06T12:43:16Z" /\
  createTimestampString t_cest = "2016-07-06T14:43:16+02:00" /\
  is_iso8601_millis_utc "2016-07-06T12:43:16.866Z" = true /\
  (forall t, is_iso8601_millis_utc (createTimestampString t) = false) /\
  (let result := put_bookmarks "deadbeefdeadbeefdeadbeefdeadbeef" (inr ENCBLOB)
                   env_count empty_db in
   fst result = JSON 200 [("lastUpdated", "2016-07-06T12:43:16Z")] /\
   kv (TS (snd result)) !! "deadbeefdeadbeefdeadbeefdeadbeef" = Some "2016-07-06T12:43:16Z").
Proof.
  split; [reflexivity|]. split; [reflexivity|]. split; [reflexivity|]. split.
  - intros t. destruct (is_iso8601_millis_utc (createTimestampString t)) eqn:Hshape;
      [|reflexivity].
    apply matches_shape_length in Hshape.
    destruct (createTimestampString_length t) as [Hlen | Hlen]; rewrite Hlen in Hshape;
      vm_compute in Hshape; discriminate.
  - split; reflexivity.
Qed.

(** ** Creation *)

Section Creation.
Variable NewV5 : UUID -> string -> UUID.




End Creation.



(** ** Payload update *)




(** ** Reads *)

Lemma get_bookmarks_missing markID d :
  kv (BM d) !! markID = None \/ kv (TS d) !! markID = None \/ kv (VR d) !! markID = None ->
  get_bookmarks markID d =
    JSON 409 [("code", "InvalidArgument"); ("message", "Invalid ID")].
Proof.
  unfold get_bookmarks, db_View, get_tx, tx_bind, Tx_Get, Bucket_Get. simpl.
  intros Hmissing.
  destruct (kv (BM d) !! markID), (kv (TS d) !! markID), (kv (VR d) !! markID);
    try reflexivity.
  destruct Hmissing as [H|[H|H]]; discriminate.
Qed.

Lemma get_lastUpdated_eq markID d :
  get_lastUpdated markID d =
    if (0 <? len (string_of_bytes (kv (TS d) !! markID)))%N
    then JSON 200 [("lastUpdated", string_of_bytes (kv (TS d) !! markID))]
    else Text 200 "{}".
Proof. reflexivity. Qed.

Lemma get_version_eq markID d :
  get_version markID d =
    if (0 <? len (string_of_bytes (kv (VR d) !! markID)))%N
    then JSON 200 [("version", string_of_bytes (kv (VR d) !! markID))]
    else Text 200 "{}".
Proof. reflexivity. Qed.

(** C8. [GET /bookmarks/:id] answers 409 "Invalid ID", its not-found
    answer, whenever one of the three values is missing under the
    identifier. For an identifier under which the store held nothing at
    the start of a run and under which no request of the run wrote (no
    [POST /bookmarks] was answered with it, no [PUT] addressed it), the
    run ends in a store where [GET /bookmarks/:id] gives that answer
    while [GET /bookmarks/:id/lastUpdated] and [GET /bookmarks/:id/version]
    answer 200 with the empty object [{}]. *)
Theorem unknown_id_not_found (NewV5 : UUID -> string -> UUID) (markID : string) :
  (forall d,
      kv (BM d) !! markID = None \/ kv (TS d) !! markID = None \/
      kv (VR d) !! markID = None ->
      get_bookmarks markID d =
        JSON 409 [("code", "InvalidArgument"); ("message", "Invalid ID")]) /\
  (forall reqs s,
      absent markID (db s) ->
      Forall (fun entry => ~ writes_under markID entry) (fst (run NewV5 reqs s)) ->
      let d := db (snd (run NewV5 reqs s)) in
      get_bookmarks markID d =
        JSON 409 [("code", "InvalidArgument"); ("message", "Invalid ID")] /\
      get_lastUpdated markID d = Text 200 "{}" /\
      get_version markID d = Text 200 "{}").
Proof.
  split; [intros d; apply get_bookmarks_missing|].
  intros reqs s (Hbm & Hts & Hvr) Hall d.
  pose proof (run_frame NewV5 reqs markID s Hall) as Hframe.
  unfold record_of in Hframe. rewrite Hbm, Hts, Hvr in Hframe.
  injection Hframe as Hbm' Hts' Hvr'. fold d in Hbm', Hts', Hvr'.
  split; [apply get_bookmarks_missing; left; exact Hbm'|].
  rewrite get_lastUpdated_eq, get_version_eq, Hts', Hvr'. split; reflexivity.
Qed.

Lemma unknown_id_not_found_witness :
  get_bookmarks "deadbeefdeadbeefdeadbeefdeadbeef"
    (snd (put_bookmarks "deadbeefdeadbeefdeadbeefdeadbeef" (inr ENCBLOB) env_count empty_db)) =
    JSON 409 [("code", "InvalidArgument"); ("message", "Invalid ID")] /\
  (let d := db (snd (run mix_id
                       [(POST_bookmarks (inr version_1_0_0), env_count);
                        (PUT_bookmarks "00000000000000000000000000000001" (inr ENCBLOB),
                         env_count);
                        (GET_bookmarks "deadbeefdeadbeefdeadbeefdeadbeef", env_count)]
                       server0)) in
   get_bookmarks "deadbeefdeadbeefdeadbeefdeadbeef" d =
     JSON 409 [("code", "InvalidArgument"); ("message", "Invalid ID")] /\
   get_lastUpdated "deadbeefdeadbeefdeadbeefdeadbeef" d = Text 200 "{}" /\
   get_version "deadbeefdeadbeefdeadbeefdeadbeef" d = Text 200 "{}").
Proof.
  destruct (unknown_id_not_found mix_id "deadbeefdeadbeefdeadbeefdeadbeef")
    as [Hmissing Hnever].
  split.
  - apply Hmissing. right. right. reflexivity.
  - apply Hnever.
    + repeat split; reflexivity.
    + vm_compute. repeat constructor; try tauto; discriminate.
Defined.





(** C10. [GET /bookmarks/:id/lastUpdated] answers with the empty object
    [{}] exactly when the timestamp bucket holds no value of positive
    length under the identifier: the key is missing, or the stored
    timestamp is the empty string. A stored timestamp that is not empty
    is answered as it is. So a stored empty timestamp and a missing one
    get the same answer, and the two stores cannot be told apart at this
    route. *)
Theorem lastUpdated_marker_iff_empty markID :
  (forall d,
      get_lastUpdated markID d = Text 200 "{}" <->
      (forall ts, kv (TS d) !! markID = Some ts -> String.length ts = 0%nat)) /\
  (forall d ts,
      kv (TS d) !! markID = Some ts -> String.length ts <> 0%nat ->
      get_lastUpdated markID d = JSON 200 [("lastUpdated", ts)]) /\
  (forall d1 d2,
      kv (TS d1) !! markID = Some "" -> kv (TS d2) !! markID = None ->
      get_lastUpdated markID d1 = Text 200 "{}" /\
      get_lastUpdated markID d1 = get_lastUpdated markID d2).
Proof.
  assert (Hcases : forall d,
             get_lastUpdated markID d =
               match kv (TS d) !! markID with
               | Some (String c ts) => JSON 200 [("lastUpdated", String c ts)]
               | _ => Text 200 "{}"
               end).
  { intros d. unfold get_lastUpdated, db_View, tx_bind, Tx_Get, Bucket_Get, tx_ret. simpl.
    destruct (kv (TS d) !! markID) as [[|c ts]|]; reflexivity. }
  split; [|split].
  - intros d. rewrite Hcases. destruct (kv (TS d) !! markID) as [[|c ts]|]; split.
    + intros _ ts [= <-]. reflexivity.
    + reflexivity.
    + discriminate.
    + intros Hall. specialize (Hall _ eq_refl). discriminate.
    + intros _ ts [=].
    + reflexivity.
  - intros d ts Hts Hlen. rewrite Hcases, Hts. destruct ts as [|c ts]; [|reflexivity].
    exfalso. apply Hlen. reflexivity.
  - intros d1 d2 H1 H2. rewrite !Hcases, H1, H2. split; reflexivity.
Qed.

Lemma lastUpdated_marker_iff_empty_witness :
  get_lastUpdated "deadbeefdeadbeefdeadbeefdeadbeef"
    (stored "deadbeefdeadbeefdeadbeefdeadbeef" "ENCBLOB" "2016-07-06T12:43:16Z" empty_db) =
    JSON 200 [("lastUpdated", "2016-07-06T12:43:16Z")] /\
  get_lastUpdated "deadbeefdeadbeefdeadbeefdeadbeef"
    (stored "deadbeefdeadbeefdeadbeefdeadbeef" "ENCBLOB" "" empty_db) = Text 200 "{}" /\
  get_lastUpdated "deadbeefdeadbeefdeadbeefdeadbeef"
    (stored "deadbeefdeadbeefdeadbeefdeadbeef" "ENCBLOB" "" empty_db) =
  get_lastUpdated "deadbeefdeadbeefdeadbeefdeadbeef" empty_db.
Proof.
  destruct (lastUpdated_marker_iff_empty "deadbeefdeadbeefdeadbeefdeadbeef")
    as (_ & Hanswered & Hsame).
  split.
  - apply (Hanswered _ "2016-07-06T12:43:16Z"); [reflexivity | discriminate].
  - apply Hsame; reflexivity.
Defined.

(** ** Runs from the empty store *)

(** Nine creations in a row with the counting random source: the [k]-th
    one collides [k - 1] times and gets the identifier [k]; the store is
    then [db_with_ids 9], on which a tenth creation gives up. *)
Example nine_creations :
  let reqs := replicate 9 (POST_bookmarks (inr version_1_0_0), env_count) in
  created_ids (fst (run mix_id reqs server0)) = map (fun n => id_of_N (N.of_nat n)) (seq 1 9) /\
  db (snd (run mix_id reqs server0)) = db_with_ids 9.
Proof. vm_compute. split; reflexivity. Qed.

(** The scenario of the API's users: create, put, get. *)
Example create_put_get :
  fst (run mix_id
         [(POST_bookmarks (inr version_1_0_0), env_count);
          (PUT_bookmarks "00000000000000000000000000000001" (inr ENCBLOB), env_count);
          (GET_bookmarks "00000000000000000000000000000001", env_count);
          (GET_bookmarks "deadbeefdeadbeefdeadbeefdeadbeef", env_count)]
         server0) =
  [(POST_bookmarks (inr version_1_0_0),
    JSON 200 [("id", "00000000000000000000000000000001");
              ("lastUpdated", "2016-07-06T12:43:16Z"); ("version", "1.0.0")]);
   (PUT_bookmarks "00000000000000000000000000000001" (inr ENCBLOB),
    JSON 200 [("lastUpdated", "2016-07-06T12:43:16Z")]);
   (GET_bookmarks "00000000000000000000000000000001",
    JSON 200 [("bookmarks", "ENCBLOB"); ("lastUpdated", "2016-07-06T12:43:16Z");
              ("version", "1.0.0")]);
   (GET_bookmarks "deadbeefdeadbeefdeadbeefdeadbeef",
    JSON 409 [("code", "InvalidArgument"); ("message", "Invalid ID")])].
Proof. vm_compute. reflexivity. Qed.

(** A commit that fails leaves nothing behind, the sequence number
    included. *)
Example failed_commit_rolls_back :
  post_bookmarks mix_id true (inr version_1_0_0) env_disk_full (db_with_ids 3) =
    (JSON 409 [("code", "InternalError");
               ("message", "write: no space left on device")], db_with_ids 3).
Proof. vm_compute. reflexivity. Qed.

(** With the gate closed no identifier is issued. *)
Example closed_gate :
  fst (run mix_id [(GET_syncToggle, env_count);
                   (POST_bookmarks (inr version_1_0_0), env_count)] server0) =
  [(GET_syncToggle, Text 200 "Toggled accept_new_syncs to [false]");
   (POST_bookmarks (inr version_1_0_0),
    JSON 409 [("code", "NotAllowed"); ("message", "Not accepting new sync users")])].
Proof. vm_compute. reflexivity. Qed.

(** ** The older copy *)

Section LegacyFacts.
Variable NewV5 : UUID -> string -> UUID.

(** Without the counter test the loop runs for as long as the candidates
    collide: no amount of fuel makes it return. *)
Lemma legacy_loop_never_gives_up bkData seqID rnd :
  (forall i, exists uuid1,
      rnd i = inr uuid1 /\ is_Some (Bucket_Get bkData (candidate NewV5 uuid1 seqID))) ->
  forall fuel n, Legacy.uniqueID_loop NewV5 fuel bkData seqID rnd n = None.
Proof.
  intros Hall fuel. induction fuel as [|fuel IH]; intros n; simpl; [reflexivity|].
  destruct (Hall n) as (uuid1 & -> & [existingKey ->]). apply IH.
Qed.

(** It stores the bookmarks of the request as the first payload and
    answers without a version. *)
Lemma legacy_create_stores_body fuel (bookmarkData : RequestData) env d resp d' :
  Legacy.post_bookmarks NewV5 fuel (inr bookmarkData) env d = Some (resp, d') ->
  status_of resp = 200%Z ->
  exists newID,
    resp = JSON 200 [("id", newID); ("lastUpdated", createTimestampString (now env))] /\
    kv (BM d') !! newID = Some (EncodedBookmarks bookmarkData) /\
    kv (VR d') = kv (VR d).
Proof.
  unfold Legacy.post_bookmarks, Legacy.create_tx, db_Update, tx_bind, Tx_Put, tx_ret. simpl.
  destruct (Legacy.uniqueID_loop _ _ _ _ _ _) as [[err|newID]|]; [| |discriminate].
  { intros [= <- <-]. discriminate. }
  repeat match goal with
  | |- context [Bucket_Put ?b ?k ?v] =>
      destruct (Bucket_Put_cases b k v) as [[_ ->] | [_ [e ->]]];
        [|simpl; intros [= <- <-]; discriminate]
  end.
  simpl. destruct (commit env); simpl; intros [= <- <-]; [discriminate|].
  intros _. exists newID. simpl. rewrite lookup_insert_eq. repeat split.
Qed.

(** Its [GET /bookmarks/:id] reads the payload and the timestamp only,
    so it answers every identifier that a [PUT] has written. *)
Lemma legacy_read_after_write markID (bookmarkData : RequestData) env d :
  status_of (fst (put_bookmarks markID (inr bookmarkData) env d)) = 200%Z ->
  Legacy.get_bookmarks markID (snd (put_bookmarks markID (inr bookmarkData) env d)) =
    JSON 200 [("bookmarks", EncodedBookmarks bookmarkData);
              ("lastUpdated", createTimestampString (now env))].
Proof.
  destruct (put_bookmarks_cases markID bookmarkData env d)
    as [(_ & _ & ->) | (_ & e & ->)]; [|discriminate].
  intros _. unfold Legacy.get_bookmarks, db_View, Legacy.get_tx, tx_bind, Tx_Get, Bucket_Get.
  simpl. rewrite !lookup_insert_eq. reflexivity.
Qed.

End LegacyFacts.

(** * Further properties of the handlers *)

(** ** The form of the identifiers *)



Section Identifiers.
Variable NewV5 : UUID -> string -> UUID.





End Identifiers.


(** ** Client versions and timestamps over runs *)

Section Versions.
Variable NewV5 : UUID -> string -> UUID.

(** Under a key of the data bucket no request changes the stored client
    version: [PUT] does not write to the version bucket and [POST] writes
    under an identifier that is not yet a key. *)
Lemma serve_keeps_version req env s markID :
  is_Some (kv (BM (db s)) !! markID) ->
  kv (VR (db (snd (serve NewV5 req env s)))) !! markID = kv (VR (db s)) !! markID.
Proof.
  intros [v Hkey]. destruct req as [body|id|id body| | |]; simpl; try reflexivity.
  - destruct (post_bookmarks NewV5 (newSyncsAllowed s) body env (db s)) as [resp d'] eqn:Hpost.
    simpl. apply post_bookmarks_cases in Hpost
      as [(bd & newID & _ & _ & _ & _ & Hfree & _ & ->) | [_ ->]]; [|reflexivity].
    simpl. apply lookup_insert_ne. congruence.
  - destruct body as [err|bd]; [reflexivity|].
    destruct (put_bookmarks_cases id bd env (db s)) as [(_ & _ & ->) | (_ & e & ->)];
      reflexivity.
Qed.

Lemma run_keeps_version reqs markID :
  forall s,
    is_Some (kv (BM (db s)) !! markID) ->
    kv (VR (db (snd (run NewV5 reqs s)))) !! markID = kv (VR (db s)) !! markID.
Proof.
  induction reqs as [|[req env] rest IH]; intros s Hkey; [reflexivity|].
  rewrite run_cons. cbn [snd]. rewrite IH.
  - apply serve_keeps_version, Hkey.
  - destruct (serve_keeps_keys NewV5 req env s markID) as [Hsome|Hnone]; [exact Hsome|].
    destruct Hkey as [v Hv]. congruence.
Qed.

(** X2. A stored client version is never changed: in a store with
    complete pairs, whatever requests follow, the version bucket keeps
    the value it holds under an identifier. *)
Theorem client_version_is_immutable reqs s markID ver :
  complete_pairs (db s) ->
  kv (VR (db s)) !! markID = Some ver ->
  kv (VR (db (snd (run NewV5 reqs s)))) !! markID = Some ver.
Proof.
  intros Hinv Hver. rewrite run_keeps_version; [exact Hver|].
  apply (Hinv markID). rewrite Hver. eauto.
Qed.



End Versions.

Lemma empty_db_complete_pairs : complete_pairs empty_db.
Proof.
  intros markID. simpl. rewrite !lookup_empty.
  split; [split|]; intros [v Hv]; discriminate.
Qed.

Lemma created_complete_pairs newID imprintTime ver d :
  complete_pairs d -> complete_pairs (created newID imprintTime ver d).
Proof.
  intros Hinv markID. destruct (Hinv markID) as [Hpair Hver]. simpl.
  rewrite !lookup_insert_is_Some'. tauto.
Qed.

Lemma stored_complete_pairs markID payload imprintTime d :
  complete_pairs d -> complete_pairs (stored markID payload imprintTime d).
Proof.
  intros Hinv k. destruct (Hinv k) as [Hpair Hver]. simpl.
  rewrite !lookup_insert_is_Some'. tauto.
Qed.

Lemma db_with_ids_complete_pairs n : complete_pairs (db_with_ids n).
Proof.
  induction n as [|n IH]; [apply empty_db_complete_pairs|].
  apply created_complete_pairs, IH.
Qed.

Lemma client_version_is_immutable_witness :
  kv (VR (db (snd (run mix_id
                     [(PUT_bookmarks "00000000000000000000000000000002" (inr ENCBLOB), env_count);
                      (POST_bookmarks (inr {| ClientVersion := "2.0.0" |}), env_count)]
                     {| db := db_with_ids 3; newSyncsAllowed := true |}))))
    !! "00000000000000000000000000000002" = Some "1.0.0".
Proof.
  apply (client_version_is_immutable mix_id).
  - apply db_with_ids_complete_pairs.
  - reflexivity.
Defined.



(** ** The shape of the timestamps *)

Lemma matches_shape_app p1 s1 p2 s2 :
  matches_shape p1 s1 = true -> matches_shape p2 s2 = true ->
  matches_shape (p1 +:+ p2) (s1 +:+ s2) = true.
Proof.
  revert s1. induction p1 as [|p p1 IH]; intros [|c s1]; simpl; try discriminate.
  - intros _ H. exact H.
  - intros H1 H2. apply andb_true_iff in H1 as [Hc H1].
    rewrite Hc. simpl. apply IH; assumption.
Qed.

Lemma digit_char_is_digit (x : Z) : is_digit (digit_char (x mod 10)) = true.
Proof.
  pose proof (Z.mod_pos_bound x 10 ltac:(lia)) as Hd.
  assert (Hcases : (x mod 10 = 0 \/ x mod 10 = 1 \/ x mod 10 = 2 \/ x mod 10 = 3 \/
                    x mod 10 = 4 \/ x mod 10 = 5 \/ x mod 10 = 6 \/ x mod 10 = 7 \/
                    x mod 10 = 8 \/ x mod 10 = 9)%Z) by lia.
  repeat destruct Hcases as [-> | Hcases]; try reflexivity. rewrite Hcases. reflexivity.
Qed.

Lemma repeat_char_snoc n c :
  repeat_char (S n) c = repeat_char n c +:+ String c EmptyString.
Proof.
  induction n as [|n IH]; [reflexivity|].
  change (repeat_char (S (S n)) c) with (String c (repeat_char (S n) c)).
  rewrite IH at 1. reflexivity.
Qed.

Lemma appendInt_digits (width : nat) (x : Z) :
  matches_shape (repeat_char width "d") (appendInt width x) = true.
Proof.
  revert x. induction width as [|w IH]; intros x; [reflexivity|].
  rewrite repeat_char_snoc. cbn [appendInt].
  apply matches_shape_app; [apply IH|].
  change (shape_ok "d" (digit_char (x mod 10)) && true = true).
  unfold shape_ok. change (Ascii.eqb "d" "d") with true. cbv iota.
  rewrite digit_char_is_digit. reflexivity.
Qed.

Lemma rfc3339_shape (y mo d h mi sec zp zs : string) :
  matches_shape (repeat_char 4 "d") y = true ->
  matches_shape (repeat_char 2 "d") mo = true ->
  matches_shape (repeat_char 2 "d") d = true ->
  matches_shape (repeat_char 2 "d") h = true ->
  matches_shape (repeat_char 2 "d") mi = true ->
  matches_shape (repeat_char 2 "d") sec = true ->
  matches_shape zp zs = true ->
  matches_shape ("dddd-dd-ddTdd:dd:dd" +:+ zp)
    (y +:+ "-" +:+ mo +:+ "-" +:+ d +:+ "T" +:+ h +:+ ":" +:+ mi +:+ ":" +:+ sec +:+ zs)
  = true.
Proof.
  intros Hy Hmo Hd Hh Hmi Hsec Hz.
  change ("dddd-dd-ddTdd:dd:dd" +:+ zp)
    with (repeat_char 4 "d" +:+ "-" +:+ repeat_char 2 "d" +:+ "-" +:+
          repeat_char 2 "d" +:+ "T" +:+ repeat_char 2 "d" +:+ ":" +:+
          repeat_char 2 "d" +:+ ":" +:+ repeat_char 2 "d" +:+ zp).
  repeat (apply matches_shape_app; [first [assumption | reflexivity]|]).
  exact Hz.
Qed.

Lemma zone_shape (sign : ascii) (hh mm : string) :
  Ascii.eqb sign "d" = false ->
  matches_shape (repeat_char 2 "d") hh = true ->
  matches_shape (repeat_char 2 "d") mm = true ->
  matches_shape (String sign "dd:dd") (String sign EmptyString +:+ hh +:+ ":" +:+ mm) = true.
Proof.
  intros Hsign Hhh Hmm.
  change (String sign "dd:dd")
    with (String sign EmptyString +:+ repeat_char 2 "d" +:+ ":" +:+ repeat_char 2 "d").
  apply matches_shape_app.
  { cbn [matches_shape]. unfold shape_ok. rewrite Hsign, Ascii.eqb_refl. reflexivity. }
  apply matches_shape_app; [exact Hhh|].
  apply matches_shape_app; [reflexivity | exact Hmm].
Qed.

(** X5. What [createTimestampString] returns always begins with the
    date and the time of day to the second, [dddd-dd-ddTdd:dd:dd]; on a
    host whose local zone is at UTC that is followed by [Z] and nothing
    else, on any other host by the zone offset, [+dd:dd] or [-dd:dd]. *)
Theorem timestamp_shape (t : Time) :
  valid_time t ->
  (zoneOffset t = 0%Z ->
   matches_shape "dddd-dd-ddTdd:dd:ddZ" (createTimestampString t) = true) /\
  (zoneOffset t <> 0%Z ->
   matches_shape "dddd-dd-ddTdd:dd:dd+dd:dd" (createTimestampString t) = true \/
   matches_shape "dddd-dd-ddTdd:dd:dd-dd:dd" (createTimestampString t) = true).
Proof.
  intros _. unfold createTimestampString, Format_RFC3339, format_zone. split.
  - intros ->. change (0 =? 0)%Z with true. cbv iota.
    apply (rfc3339_shape _ _ _ _ _ _ "Z" "Z"); try apply appendInt_digits. reflexivity.
  - intros Hne. apply Z.eqb_neq in Hne. rewrite Hne. cbv zeta.
    destruct (Z.quot (zoneOffset t) 60 <? 0)%Z; [right|left].
    + apply (rfc3339_shape _ _ _ _ _ _ "-dd:dd"); try apply appendInt_digits.
      apply (zone_shape "-"); [reflexivity | apply appendInt_digits | apply appendInt_digits].
    + apply (rfc3339_shape _ _ _ _ _ _ "+dd:dd"); try apply appendInt_digits.
      apply (zone_shape "+"); [reflexivity | apply appendInt_digits | apply appendInt_digits].
Qed.

Lemma timestamp_shape_witness :
  matches_shape "dddd-dd-ddTdd:dd:ddZ" (createTimestampString t_utc) = true /\
  (matches_shape "dddd-dd-ddTdd:dd:dd+dd:dd" (createTimestampString t_cest) = true \/
   matches_shape "dddd-dd-ddTdd:dd:dd-dd:dd" (createTimestampString t_cest) = true).
Proof.
  assert (Hutc : valid_time t_utc) by (unfold valid_time; simpl; lia).
  assert (Hcest : valid_time t_cest) by (unfold valid_time; simpl; lia).
  split.
  - apply (timestamp_shape t_utc Hutc). reflexivity.
  - apply (timestamp_shape t_cest Hcest). discriminate.
Defined.

(** ** Counters *)

Section Counters.
Variable NewV5 : UUID -> string -> UUID.






End Counters.


(** ** How the writes compose *)

Section Composition.
Variable NewV5 : UUID -> string -> UUID.



End Composition.



(** ** The new-sync gate *)

Section Gate.
Variable NewV5 : UUID -> string -> UUID.

Lemma run_closed_gate reqs :
  forall s,
    newSyncsAllowed s = false ->
    Forall (fun re => is_toggle (fst re) = false) reqs ->
    created_ids (fst (run NewV5 reqs s)) = [] /\
    newSyncsAllowed (snd (run NewV5 reqs s)) = false.
Proof.
  induction reqs as [|[req env] rest IH]; intros s Hclosed Hall; [split; [reflexivity|exact Hclosed]|].
  apply Forall_cons in Hall as [Hreq Hrest]. simpl in Hreq.
  rewrite run_cons. cbn [fst snd]. rewrite created_ids_cons.
  assert (Hstep : created_id (req, fst (serve NewV5 req env s)) = None /\
                  newSyncsAllowed (snd (serve NewV5 req env s)) = false).
  { destruct req as [body|id|id body|id|id|]; simpl; try discriminate;
      try (split; [reflexivity | exact Hclosed]).
    - unfold post_bookmarks. rewrite Hclosed. simpl. split; reflexivity.
    - destruct (put_bookmarks id body env (db s)). simpl. split; [reflexivity|exact Hclosed]. }
  destruct Hstep as [-> Hclosed']. apply IH; assumption.
Qed.

(** X10. The gate stops creation. While [newSyncsAllowed] is false and
    no request goes to the toggle route, no run hands out an identifier,
    whatever the bodies of the [POST /bookmarks] requests are. What the
    routes [GET /bookmarks/:id], [PUT /bookmarks/:id],
    [GET /bookmarks/:id/lastUpdated] and [GET /bookmarks/:id/version]
    answer and write does not depend on the gate. [GET /info] does: its
    status is 3 with the gate closed and 1 with it open, its other fields
    are the same. *)
Theorem closed_gate_stops_only_creation :
  (forall reqs s,
      newSyncsAllowed s = false ->
      Forall (fun re => is_toggle (fst re) = false) reqs ->
      created_ids (fst (run NewV5 reqs s)) = [] /\
      newSyncsAllowed (snd (run NewV5 reqs s)) = false) /\
  (forall req env d,
      is_post req = false -> is_toggle req = false ->
      fst (serve NewV5 req env {| db := d; newSyncsAllowed := false |}) =
        fst (serve NewV5 req env {| db := d; newSyncsAllowed := true |}) /\
      db (snd (serve NewV5 req env {| db := d; newSyncsAllowed := false |})) =
        db (snd (serve NewV5 req env {| db := d; newSyncsAllowed := true |}))) /\
  (forall ServiceMessage BuildStamp MaxSyncSizeKb d,
      get_info ServiceMessage BuildStamp MaxSyncSizeKb
        {| db := d; newSyncsAllowed := false |} =
        {| info_status := 3; info_message := ServiceMessage; info_version := "1.1.5";
           info_buildstamp := BuildStamp;
           info_maxSyncSize := maxSyncSizeBytes MaxSyncSizeKb |} /\
      get_info ServiceMessage BuildStamp MaxSyncSizeKb
        {| db := d; newSyncsAllowed := true |} =
        {| info_status := 1; info_message := ServiceMessage; info_version := "1.1.5";
           info_buildstamp := BuildStamp;
           info_maxSyncSize := maxSyncSizeBytes MaxSyncSizeKb |}).
Proof.
  split; [exact run_closed_gate|]. split.
  - intros req env d Hpost Htoggle.
    destruct req as [body|id|id body|id|id|]; try discriminate; simpl;
      try (split; reflexivity).
    destruct (put_bookmarks id body env d). split; reflexivity.
  - intros ServiceMessage BuildStamp MaxSyncSizeKb d. split; reflexivity.
Qed.

End Gate.

Lemma closed_gate_stops_only_creation_witness :
  created_ids
    (fst (run mix_id
            [(POST_bookmarks (inr version_1_0_0), env_count);
             (PUT_bookmarks "00000000000000000000000000000001" (inr ENCBLOB), env_count);
             (POST_bookmarks (inr version_1_0_0), env_count)]
            {| db := db_with_ids 1; newSyncsAllowed := false |})) = [] /\
  fst (serve mix_id (PUT_bookmarks "00000000000000000000000000000001" (inr ENCBLOB)) env_count
         {| db := db_with_ids 1; newSyncsAllowed := false |}) =
  fst (serve mix_id (PUT_bookmarks "00000000000000000000000000000001" (inr ENCBLOB)) env_count
         {| db := db_with_ids 1; newSyncsAllowed := true |}).
Proof.
  destruct (closed_gate_stops_only_creation mix_id) as (Hruns & Hothers & _).
  split.
  - apply Hruns; [reflexivity|]. repeat constructor.
  - apply Hothers; reflexivity.
Defined.

(** ** [GET /info] *)

(** X11. The [maxSyncSize] that [GET /info] reports is 1024 times the
    configured [MaxSyncSizeKb] exactly when that product fits [int32],
    that is for -2^21 <= MaxSyncSizeKb < 2^21; from 2^21 KB (2 GiB) on
    the product wraps around, so that 2097152 KB is reported as
    -2147483648 bytes. The reported status is 1 with the gate open and 3
    with it closed. *)
Theorem info_maxSyncSize_wraps ServiceMessage BuildStamp (MaxSyncSizeKb : Z) s :
  (info_maxSyncSize (get_info ServiceMessage BuildStamp MaxSyncSizeKb s) =
     (1024 * MaxSyncSizeKb)%Z <->
   (- 2 ^ 21 <= MaxSyncSizeKb < 2 ^ 21)%Z) /\
  (- 2 ^ 31 <= info_maxSyncSize (get_info ServiceMessage BuildStamp MaxSyncSizeKb s)
     < 2 ^ 31)%Z /\
  info_maxSyncSize (get_info ServiceMessage BuildStamp 2097152 s) = (-2147483648)%Z /\
  info_status (get_info ServiceMessage BuildStamp MaxSyncSizeKb s) =
    (if newSyncsAllowed s then 1 else 3)%Z.
Proof.
  unfold get_info, maxSyncSizeBytes, int32. cbn [info_maxSyncSize info_status].
  pose proof (Z.mod_pos_bound (1024 * MaxSyncSizeKb + 2 ^ 31) (2 ^ 32) ltac:(lia)) as Hmod.
  split; [|split; [lia|split; [reflexivity|destruct (newSyncsAllowed s); reflexivity]]].
  split.
  - intros Heq. lia.
  - intros Hrange. rewrite Z.mod_small by lia. lia.
Qed.

(** ** Start-up *)

Lemma CreateBucketIfNotExists_spec (name : BucketName) (file : gmap string Bucket) :
  CreateBucketIfNotExists (bucket_name name) file =
    inr (match file !! bucket_name name with
         | Some _ => file
         | None => <[bucket_name name := empty_bucket]> file
         end).
Proof.
  unfold CreateBucketIfNotExists.
  destruct name; simpl; destruct (file !! _); reflexivity.
Qed.

Lemma ensure_step_lookup (n : string) (file : gmap string Bucket) (name : string) :
  (match file !! n with
   | Some _ => file
   | None => <[n := empty_bucket]> file
   end) !! name =
  match file !! name with
  | Some b => Some b
  | None => if decide (name = n) then Some empty_bucket else None
  end.
Proof.
  destruct (file !! n) as [b|] eqn:Hn.
  - destruct (file !! name) as [b'|] eqn:Hname; [reflexivity|].
    case_decide; [subst; congruence | reflexivity].
  - rewrite lookup_insert. case_decide as Heq.
    + subst. rewrite Hn. case_decide; [reflexivity | congruence].
    + destruct (file !! name); [reflexivity|]. case_decide; [congruence | reflexivity].
Qed.

(** X13. Start-up never loses data: on every store file the body of
    the transaction that ensures the buckets returns no error, keeps
    every bucket the file has with its contents and its sequence, adds as empty buckets exactly
    those of [BM], [TS] and [VR] that are missing, leaves a file in
    which the handlers find all three, and changes nothing when it runs
    again on its own result (a restart). *)
Theorem ensure_buckets_keeps_data (file : gmap string Bucket) :
  exists file',
    ensure_buckets file = inr file' /\
    (forall name,
        file' !! name =
          match file !! name with
          | Some b => Some b
          | None =>
              if bool_decide (name = "BM" \/ name = "TS" \/ name = "VR")
              then Some empty_bucket else None
          end) /\
    is_Some (open_buckets file') /\
    ensure_buckets file' = inr file'.
Proof.
  unfold ensure_buckets. rewrite !CreateBucketIfNotExists_spec.
  set (file1 := match file !! bucket_name boltDataBucket with
                | Some _ => file | None => <[bucket_name boltDataBucket := empty_bucket]> file
                end).
  set (file2 := match file1 !! bucket_name boltTimestampBucket with
                | Some _ => file1
                | None => <[bucket_name boltTimestampBucket := empty_bucket]> file1
                end).
  set (file3 := match file2 !! bucket_name boltVersionBucket with
                | Some _ => file2
                | None => <[bucket_name boltVersionBucket := empty_bucket]> file2
                end).
  assert (Hlookup : forall name,
             file3 !! name =
               match file !! name with
               | Some b => Some b
               | None =>
                   if bool_decide (name = "BM" \/ name = "TS" \/ name = "VR")
                   then Some empty_bucket else None
               end).
  { intros name. subst file3 file2 file1. rewrite !ensure_step_lookup.
    destruct (file !! name) as [b|]; [reflexivity|]. simpl.
    destruct (decide (name = "BM")) as [->|Hbm].
    { rewrite bool_decide_eq_true_2 by tauto. reflexivity. }
    destruct (decide (name = "TS")) as [->|Hts].
    { rewrite bool_decide_eq_true_2 by tauto. reflexivity. }
    destruct (decide (name = "VR")) as [->|Hvr].
    { rewrite bool_decide_eq_true_2 by tauto. reflexivity. }
    rewrite bool_decide_eq_false_2 by tauto. reflexivity. }
  exists file3. split; [reflexivity|]. split; [exact Hlookup|].
  clearbody file3. clear file1 file2.
  assert (Hbm : is_Some (file3 !! "BM")).
  { rewrite Hlookup. destruct (file !! "BM"); [eauto|].
    rewrite bool_decide_eq_true_2 by tauto. eauto. }
  assert (Hts : is_Some (file3 !! "TS")).
  { rewrite Hlookup. destruct (file !! "TS"); [eauto|].
    rewrite bool_decide_eq_true_2 by tauto. eauto. }
  assert (Hvr : is_Some (file3 !! "VR")).
  { rewrite Hlookup. destruct (file !! "VR"); [eauto|].
    rewrite bool_decide_eq_true_2 by tauto. eauto. }
  destruct Hbm as [bm Hbm], Hts as [ts Hts], Hvr as [vr Hvr].
  split.
  - unfold open_buckets. cbn [bucket_name]. rewrite Hbm, Hts, Hvr. eauto.
  - rewrite !CreateBucketIfNotExists_spec. cbn [bucket_name].
    rewrite Hbm. rewrite Hts. rewrite Hvr. reflexivity.
Qed.

(** A store file that the older copy has set up has no version bucket;
    the start-up of the current program adds it, empty. *)
Example legacy_file_gets_version_bucket :
  exists file file',
    legacy_ensure_buckets ∅ = inr file /\ open_buckets file = None /\
    ensure_buckets file = inr file' /\ open_buckets file' = Some empty_db.
Proof.
  eexists _, _. split; [reflexivity|]. split; [vm_compute; reflexivity|].
  split; [reflexivity|]. vm_compute. reflexivity.
Qed.
